(** * provider-upbound: the RepositoryPermission controller

    A shallow embedding of
    [internal/controller/repositorypermission/controller.go]: the connector
    ([Connect]) and the external client ([Observe], [Create], [Update],
    [Delete]) that the managed-resource reconciler drives.

    Go features and how they are rendered here:
    - an [error] interface value is [option error], [None] being [nil];
    - [resource.Managed] is an interface value: [nil], a [*v1alpha1.Permission]
      (itself possibly a nil pointer), or a value of another dynamic type;
    - a method that mutates its receiver through a pointer returns the
      receiver's new value next to its results (state passing);
    - calls that leave the process (the Upbound API, the Kubernetes API, the
      clock) thread a [World]; every such call is also appended to a call log,
      so that "no external call was made" is a statement about the log;
    - a nil-pointer dereference is the outcome [Panicked];
    - [context.Context] only carries cancellation to the collaborators, whose
      behaviour is arbitrary here, and is left out. *)

From Stdlib Require Import ZArith.
From stdpp Require Import base strings gmap list relations.

Section Controller.

(** The collaborators' data: the world outside the process, error values built
    by collaborators (HTTP and Kubernetes clients), [*up.Config],
    [client.Client], the permission level carried by
    [PermissionParameters.Permission] (its declaration is in
    [internal/client/repositorypermission], outside the files at hand), and
    managed resources of any kind other than [Permission]. *)
Context {World ForeignError Config KubeClient PermissionType OtherManaged : Type}.

(** ** Errors: github.com/pkg/errors *)

(** [errors.New] builds a fresh error from a message, [errors.Wrap] annotates a
    non-nil cause with a message (stack traces are not modelled). *)
Inductive error : Type :=
  | errorString (msg : string)
  | withMessage (cause : error) (msg : string)
  | foreignError (e : ForeignError).

Definition errors_New (msg : string) : option error := Some (errorString msg).

(** [errors.Wrap] returns nil when the error it is given is nil. *)
Definition errors_Wrap (err : option error) (message : string) : option error :=
  match err with
  | None => None
  | Some e => Some (withMessage e message)
  end.

(** [errors.Cause]: the innermost error of a chain of wraps. *)
Fixpoint errors_Cause (e : error) : error :=
  match e with
  | withMessage cause _ => errors_Cause cause
  | _ => e
  end.

(** [resource.Ignore] of crossplane-runtime: nil if the error satisfies the
    predicate, the error itself otherwise. *)
Definition resource_Ignore (is_ : option error -> bool) (err : option error) : option error :=
  if is_ err then None else err.

(** [pointer.StringDeref] of k8s.io/utils: the pointee, or the default for a
    nil pointer. *)
Definition pointer_StringDeref (ptr : option string) (def : string) : string :=
  match ptr with
  | Some s => s
  | None => def
  end.

Definition errNotPermission : string :=
  "managed resource is not a RepositoryPermission custom resource".
Definition errTrackPCUsage : string := "cannot track ProviderConfig usage".
Definition errNewClient : string := "cannot create new client".

(** ** Status conditions: crossplane-runtime/apis/common/v1 *)

Definition Time : Type := Z.

Record Condition : Type := mkCondition {
  cond_Type : string;
  cond_Status : string;
  cond_LastTransitionTime : Time;
  cond_Reason : string;
  cond_Message : string
}.

Definition TypeReady : string := "Ready".
Definition ReasonAvailable : string := "Available".
Definition ConditionTrue : string := "True".
Definition ConditionUnknown : string := "Unknown".

(** [Condition.Equal] ignores the transition time. *)
Definition Condition_Equal (c other : Condition) : bool :=
  bool_decide (cond_Type c = cond_Type other)
  && bool_decide (cond_Status c = cond_Status other)
  && bool_decide (cond_Reason c = cond_Reason other)
  && bool_decide (cond_Message c = cond_Message other).

(** [v1.Available()] stamps the condition with the current time. *)
Definition Available (now : Time) : Condition :=
  {| cond_Type := TypeReady;
     cond_Status := ConditionTrue;
     cond_LastTransitionTime := now;
     cond_Reason := ReasonAvailable;
     cond_Message := "" |}.

Record ConditionedStatus : Type := mkConditionedStatus {
  Conditions : list Condition
}.

(** The inner loop of [ConditionedStatus.SetConditions] for one new condition:
    every existing condition of the same type that is not [Equal] to the new
    one is overwritten in place; [exists] records whether the type was met. *)
Fixpoint setCondition_loop (new : Condition) (cs : list Condition) : list Condition * bool :=
  match cs with
  | [] => ([], false)
  | existing :: rest =>
      let '(rest', found) := setCondition_loop new rest in
      if bool_decide (cond_Type existing = cond_Type new)
      then if Condition_Equal existing new
           then (existing :: rest', true)
           else (new :: rest', true)
      else (existing :: rest', found)
  end.

Definition setCondition (cs : list Condition) (new : Condition) : list Condition :=
  let '(cs', found) := setCondition_loop new cs in
  if found then cs' else cs' ++ [new].

Definition ConditionedStatus_SetConditions (s : ConditionedStatus) (c : list Condition)
  : ConditionedStatus :=
  {| Conditions := foldl setCondition (Conditions s) c |}.

(** [ConditionedStatus.GetCondition]: the first condition of the given type,
    or an [Unknown] one. *)
Definition ConditionedStatus_GetCondition (s : ConditionedStatus) (ct : string) : Condition :=
  match List.find (fun c => bool_decide (cond_Type c = ct)) (Conditions s) with
  | Some c => c
  | None => {| cond_Type := ct; cond_Status := ConditionUnknown;
               cond_LastTransitionTime := 0%Z; cond_Reason := ""; cond_Message := "" |}
  end.

(** ** Object metadata: crossplane-runtime/pkg/meta *)

(** A nil annotation map and an empty one are both the empty [gmap]:
    [AddAnnotations] treats them alike. *)
Record ObjectMeta : Type := mkObjectMeta {
  Name : string;
  Annotations : gmap string string
}.

Definition AnnotationKeyExternalName : string := "crossplane.io/external-name".

(** [meta.AddAnnotations]: the given entries are written over the object's. *)
Definition meta_AddAnnotations (o : ObjectMeta) (annotations : gmap string string) : ObjectMeta :=
  {| Name := Name o; Annotations := annotations ∪ Annotations o |}.

Definition meta_SetExternalName (o : ObjectMeta) (name : string) : ObjectMeta :=
  meta_AddAnnotations o {[ AnnotationKeyExternalName := name ]}.

(** [meta.GetExternalName] reads the map, so an absent annotation reads as the
    empty string; [externalName] keeps the difference between unset and empty. *)
Definition externalName (o : ObjectMeta) : option string :=
  Annotations o !! AnnotationKeyExternalName.

Definition meta_GetExternalName (o : ObjectMeta) : string :=
  default "" (externalName o).

(** ** The Permission managed resource: apis/repository/v1alpha1 *)

Record PermissionParameters : Type := mkPermissionParameters {
  OrganizationName : string;
  TeamID : option string;
  Permission_level : PermissionType;
  Repository : option string
}.

(** [xpv1.ResourceSpec], with the fields the generated accessors touch. *)
Record PermissionSpec : Type := mkPermissionSpec {
  ForProvider : PermissionParameters;
  DeletionPolicy : string;
  ManagementPolicies : list string;
  ProviderConfigReference : option string;
  PublishConnectionDetailsTo : option string;
  WriteConnectionSecretToReference : option (string * string)
}.

Record PermissionStatus : Type := mkPermissionStatus {
  ResourceStatus : ConditionedStatus
}.

Record Permission : Type := mkPermission {
  Meta : ObjectMeta;
  Spec : PermissionSpec;
  Status : PermissionStatus
}.

(** [cr.Status.SetConditions(c...)] *)
Definition Status_SetConditions (cr : Permission) (c : list Condition) : Permission :=
  {| Meta := Meta cr;
     Spec := Spec cr;
     Status := {| ResourceStatus := ConditionedStatus_SetConditions (ResourceStatus (Status cr)) c |} |}.

(** zz_generated.managed.go *)
Definition GetCondition (mg : Permission) (ct : string) : Condition :=
  ConditionedStatus_GetCondition (ResourceStatus (Status mg)) ct.

Definition SetConditions (mg : Permission) (c : list Condition) : Permission :=
  Status_SetConditions mg c.

Definition GetDeletionPolicy (mg : Permission) : string := DeletionPolicy (Spec mg).

Definition GetProviderConfigReference (mg : Permission) : option string :=
  ProviderConfigReference (Spec mg).

(** [meta.SetExternalName(cr, name)] on a Permission. *)
Definition SetExternalName (cr : Permission) (name : string) : Permission :=
  {| Meta := meta_SetExternalName (Meta cr) name; Spec := Spec cr; Status := Status cr |}.

(** A [resource.Managed] interface value. *)
Inductive Managed : Type :=
  | MgNil
  | MgPermission (ptr : option Permission)
  | MgOther (o : OtherManaged).

(** ** The API client: internal/client/repositorypermission *)

Record GetParameters : Type := mkGetParameters {
  get_Repository : string;
  get_Organization : string;
  get_TeamID : string
}.

Record CreateParameters : Type := mkCreateParameters {
  create_Repository : string;
  create_Organization : string;
  create_TeamID : string;
  create_Permission : PermissionType
}.

(** A [*repositorypermission.Client] is known by what its three methods do to
    the world; each returns a Go error. *)
Record Client : Type := mkClient {
  Client_Get : GetParameters -> World -> option error * World;
  Client_Create : CreateParameters -> World -> option error * World;
  Client_Delete : GetParameters -> World -> option error * World
}.

(** [resource.Tracker], an interface with one method. *)
Record Tracker : Type := mkTracker {
  Track : Managed -> World -> option error * World
}.

(** ** Results: crossplane-runtime/pkg/reconciler/managed *)

Definition ConnectionDetails : Type := list (string * string).

Record ExternalObservation : Type := mkExternalObservation {
  ResourceExists : bool;
  ResourceUpToDate : bool;
  ResourceLateInitialized : bool;
  obs_ConnectionDetails : ConnectionDetails;
  Diff : string
}.

Record ExternalCreation : Type := mkExternalCreation {
  creation_ConnectionDetails : ConnectionDetails
}.

Record ExternalUpdate : Type := mkExternalUpdate {
  update_ConnectionDetails : ConnectionDetails
}.

(** The zero values [managed.ExternalObservation{}] and the like. *)
Definition ExternalObservation_zero : ExternalObservation :=
  {| ResourceExists := false; ResourceUpToDate := false; ResourceLateInitialized := false;
     obs_ConnectionDetails := []; Diff := "" |}.
Definition ExternalCreation_zero : ExternalCreation := {| creation_ConnectionDetails := [] |}.
Definition ExternalUpdate_zero : ExternalUpdate := {| update_ConnectionDetails := [] |}.

(** ** Effects *)

(** A call that left the process. *)
Inductive Call : Type :=
  | CallGet (p : GetParameters)
  | CallCreate (p : CreateParameters)
  | CallDelete (p : GetParameters)
  | CallTrack (mg : Managed)
  | CallNewConfig (mg : Managed).

Record State : Type := mkState {
  outside : World;
  calls : list Call
}.

Inductive Outcome (A : Type) : Type :=
  | Returned (a : A) (s : State)
  | Panicked (reason : string).
Global Arguments Returned {A} a s.
Global Arguments Panicked {A} reason.

Definition Go (A : Type) : Type := State -> Outcome A.

Definition Go_ret {A} (a : A) : Go A := fun s => Returned a s.

Definition Go_bind {A B} (m : Go A) (k : A -> Go B) : Go B :=
  fun s => match m s with
           | Returned a s' => k a s'
           | Panicked r => Panicked r
           end.

#[global] Instance Go_mret : MRet Go := @Go_ret.
#[global] Instance Go_mbind : MBind Go := fun A B k m => Go_bind m k.

Definition panic {A} (reason : string) : Go A := fun _ => Panicked reason.

(** Reading a field through a pointer. *)
Definition deref {A} (ptr : option A) : Go A :=
  match ptr with
  | Some a => Go_ret a
  | None => panic "invalid memory address or nil pointer dereference"
  end.

(** An outside call: run it on the world, log it. *)
Definition outcall {A} (c : Call) (f : World -> A * World) : Go A :=
  fun s => let '(a, w) := f (outside s) in
           Returned a {| outside := w; calls := calls s ++ [c] |}.

(** ** The controller: internal/controller/repositorypermission *)

(** Functions of other packages that the controller calls:
    [uperrors.IsNotFound] of up-sdk-go, the clock behind [metav1.Now],
    [upclient.NewConfig] (its second result, which [Connect] discards, is left
    out) and [repositorypermission.NewClient]. The controller is verified
    against any implementation of them. *)
Class Imports : Type := {
  uperrors_IsNotFound : option error -> bool;
  metav1_Now : World -> Time;
  upclient_NewConfig : KubeClient -> Managed -> World -> (Config * option error) * World;
  repositorypermission_NewClient : Config -> Client
}.

Context {imports : Imports}.

Definition v1_Available : Go Condition :=
  fun s => Returned (Available (metav1_Now (outside s))) s.

Record connector : Type := mkConnector {
  kube : KubeClient;
  usage : Tracker
}.

Record external : Type := mkExternal {
  repositorypermission : Client
}.

Definition Connect (c : connector) (mg : Managed) : Go (option external * option error) :=
  match mg with
  | MgPermission cr =>
      err ← outcall (CallTrack mg) (Track (usage c) mg);
      match err with
      | Some _ => mret (None, errors_Wrap err errTrackPCUsage)
      | None =>
          '(cfg, err) ← outcall (CallNewConfig (MgPermission cr))
                                (upclient_NewConfig (kube c) (MgPermission cr));
          match err with
          | Some _ => mret (None, errors_Wrap err errNewClient)
          | None =>
              mret (Some {| repositorypermission := repositorypermission_NewClient cfg |}, None)
          end
      end
  | _ => mret (None, errors_New errNotPermission)
  end.

(** The structural key both [Observe] and [Delete] build from the record. *)
Definition getParameters (cr : Permission) : GetParameters :=
  {| get_Repository := pointer_StringDeref (Repository (ForProvider (Spec cr))) "";
     get_Organization := OrganizationName (ForProvider (Spec cr));
     get_TeamID := pointer_StringDeref (TeamID (ForProvider (Spec cr))) "" |}.

Definition createParameters (cr : Permission) : CreateParameters :=
  {| create_Repository := pointer_StringDeref (Repository (ForProvider (Spec cr))) "";
     create_Organization := OrganizationName (ForProvider (Spec cr));
     create_TeamID := pointer_StringDeref (TeamID (ForProvider (Spec cr))) "";
     create_Permission := Permission_level (ForProvider (Spec cr)) |}.

(** Each method returns the managed resource as the call leaves it, then its
    Go results. *)
Definition Observe (c : external) (mg : Managed)
  : Go (Managed * ExternalObservation * option error) :=
  match mg with
  | MgPermission ptr =>
      cr ← deref ptr;
      err ← outcall (CallGet (getParameters cr))
                    (Client_Get (repositorypermission c) (getParameters cr));
      match err with
      | Some _ =>
          mret (mg, ExternalObservation_zero,
                errors_Wrap (resource_Ignore uperrors_IsNotFound err) "failed to get team")
      | None =>
          available ← v1_Available;
          mret (MgPermission (Some (Status_SetConditions cr [available])),
                {| ResourceExists := true; ResourceUpToDate := true;
                   ResourceLateInitialized := false; obs_ConnectionDetails := [];
                   Diff := "" |},
                None)
      end
  | _ => mret (mg, ExternalObservation_zero, errors_New errNotPermission)
  end.

Definition Create (c : external) (mg : Managed)
  : Go (Managed * ExternalCreation * option error) :=
  match mg with
  | MgPermission ptr =>
      cr ← deref ptr;
      err ← outcall (CallCreate (createParameters cr))
                    (Client_Create (repositorypermission c) (createParameters cr));
      match err with
      | Some _ =>
          mret (mg, ExternalCreation_zero,
                errors_Wrap err "failed to create repository permission")
      | None =>
          mret (MgPermission (Some (SetExternalName cr
                  (pointer_StringDeref (Repository (ForProvider (Spec cr))) ""))),
                ExternalCreation_zero, None)
      end
  | _ => mret (mg, ExternalCreation_zero, errors_New errNotPermission)
  end.

Definition Update (c : external) (mg : Managed)
  : Go (Managed * ExternalUpdate * option error) :=
  mret (mg, ExternalUpdate_zero, None).

Definition Delete (c : external) (mg : Managed) : Go (Managed * option error) :=
  match mg with
  | MgPermission ptr =>
      cr ← deref ptr;
      err ← outcall (CallDelete (getParameters cr))
                    (Client_Delete (repositorypermission c) (getParameters cr));
      mret (mg, errors_Wrap (resource_Ignore uperrors_IsNotFound err)
                            "cannot delete repositroy permission")
  | _ => mret (mg, errors_New errNotPermission)
  end.

(** ** Vocabulary of the statements *)

(** The observation [Observe] builds when [Get] succeeds. *)
Definition observedUpToDate : ExternalObservation :=
  {| ResourceExists := true; ResourceUpToDate := true; ResourceLateInitialized := false;
     obs_ConnectionDetails := []; Diff := "" |}.

Definition logged (s : State) (w : World) (c : Call) : State :=
  {| outside := w; calls := calls s ++ [c] |}.

(** The repository identifier of a record: what [Create] binds it to. *)
Definition repositoryIdentifier (cr : Permission) : string :=
  pointer_StringDeref (Repository (ForProvider (Spec cr))) "".

(** Two calls of [Delete] in a row on the same resource, keeping both errors. *)
Definition DeleteTwice (c : external) (mg : Managed) : Go (option error * option error) :=
  '(mg1, err1) ← Delete c mg;
  '(_, err2) ← Delete c mg1;
  mret (err1, err2).

(** The API's Delete answers that the object is gone: success or NotFound. *)
Definition goneAnswer (r : option error * World) : Prop :=
  r.1 = None \/ uperrors_IsNotFound r.1 = true.

(** The type assertion of [mg] to a [*v1alpha1.Permission] succeeds. *)
Definition isPermission (mg : Managed) : bool :=
  match mg with
  | MgPermission _ => true
  | _ => false
  end.

Definition wrongKind : option error := Some (errorString errNotPermission).








(** ** The rest of zz_generated.managed.go for Permission *)

Definition GetManagementPolicies (mg : Permission) : list string :=
  ManagementPolicies (Spec mg).

Definition GetPublishConnectionDetailsTo (mg : Permission) : option string :=
  PublishConnectionDetailsTo (Spec mg).

Definition GetWriteConnectionSecretToReference (mg : Permission) : option (string * string) :=
  WriteConnectionSecretToReference (Spec mg).

Definition SetDeletionPolicy (mg : Permission) (r : string) : Permission :=
  {| Meta := Meta mg;
     Spec := {| ForProvider := ForProvider (Spec mg);
                DeletionPolicy := r;
                ManagementPolicies := ManagementPolicies (Spec mg);
                ProviderConfigReference := ProviderConfigReference (Spec mg);
                PublishConnectionDetailsTo := PublishConnectionDetailsTo (Spec mg);
                WriteConnectionSecretToReference := WriteConnectionSecretToReference (Spec mg) |};
     Status := Status mg |}.

Definition SetManagementPolicies (mg : Permission) (r : list string) : Permission :=
  {| Meta := Meta mg;
     Spec := {| ForProvider := ForProvider (Spec mg);
                DeletionPolicy := DeletionPolicy (Spec mg);
                ManagementPolicies := r;
                ProviderConfigReference := ProviderConfigReference (Spec mg);
                PublishConnectionDetailsTo := PublishConnectionDetailsTo (Spec mg);
                WriteConnectionSecretToReference := WriteConnectionSecretToReference (Spec mg) |};
     Status := Status mg |}.

Definition SetProviderConfigReference (mg : Permission) (r : option string) : Permission :=
  {| Meta := Meta mg;
     Spec := {| ForProvider := ForProvider (Spec mg);
                DeletionPolicy := DeletionPolicy (Spec mg);
                ManagementPolicies := ManagementPolicies (Spec mg);
                ProviderConfigReference := r;
                PublishConnectionDetailsTo := PublishConnectionDetailsTo (Spec mg);
                WriteConnectionSecretToReference := WriteConnectionSecretToReference (Spec mg) |};
     Status := Status mg |}.

Definition SetPublishConnectionDetailsTo (mg : Permission) (r : option string) : Permission :=
  {| Meta := Meta mg;
     Spec := {| ForProvider := ForProvider (Spec mg);
                DeletionPolicy := DeletionPolicy (Spec mg);
                ManagementPolicies := ManagementPolicies (Spec mg);
                ProviderConfigReference := ProviderConfigReference (Spec mg);
                PublishConnectionDetailsTo := r;
                WriteConnectionSecretToReference := WriteConnectionSecretToReference (Spec mg) |};
     Status := Status mg |}.

Definition SetWriteConnectionSecretToReference (mg : Permission) (r : option (string * string))
  : Permission :=
  {| Meta := Meta mg;
     Spec := {| ForProvider := ForProvider (Spec mg);
                DeletionPolicy := DeletionPolicy (Spec mg);
                ManagementPolicies := ManagementPolicies (Spec mg);
                ProviderConfigReference := ProviderConfigReference (Spec mg);
                PublishConnectionDetailsTo := PublishConnectionDetailsTo (Spec mg);
                WriteConnectionSecretToReference := r |};
     Status := Status mg |}.

(** What the five getters of the resource spec read. *)
Definition resourceSpec (mg : Permission)
  : string * list string * option string * option string * option (string * string) :=
  (GetDeletionPolicy mg, GetManagementPolicies mg, GetProviderConfigReference mg,
   GetPublishConnectionDetailsTo mg, GetWriteConnectionSecretToReference mg).

(** The last condition of a type among those given to [SetConditions]. *)
Definition lastOfType (ct : string) (c : list Condition) : option Condition :=
  List.find (fun x => bool_decide (cond_Type x = ct)) (rev c).

(** ** More vocabulary: operations in sequence *)

(** [Create], then [Observe] on the resource [Create] left. *)
Definition CreateThenObserve (c : external) (mg : Managed)
  : Go (Managed * option error * ExternalObservation * option error) :=
  '(mg1, _, err1) ← Create c mg;
  '(mg2, obs, err2) ← Observe c mg1;
  mret (mg2, err1, obs, err2).

(** The structural key a [Create] call addresses. *)
Definition createdKey (p : CreateParameters) : GetParameters :=
  {| get_Repository := create_Repository p;
     get_Organization := create_Organization p;
     get_TeamID := create_TeamID p |}.

(** Metadata, provider parameters and status of two records agree. *)
Definition sameOutsideResourceSpec (mg mg' : Permission) : Prop :=
  Meta mg' = Meta mg /\ ForProvider (Spec mg') = ForProvider (Spec mg) /\ Status mg' = Status mg.

End Controller.

(** * The provider binary: func main

    [main] after the command line is parsed: the flags are its input. Every
    call that leaves [main] threads a [Host] (the API server and the globals
    of the process) and is logged as a [Step]. [kingpin.FatalIfError] ends the
    process; that is the outcome [Fatal] with the message and the error. *)

Section Main.

(** The state outside [main], errors of collaborators, [*rest.Config] and
    [ctrl.Manager]. *)
Context {Host ForeignError RestConfig Manager : Type}.

Local Abbreviation error := (error (ForeignError:=ForeignError)).

(** [time.Duration] counts nanoseconds. *)
Definition Duration : Type := Z.
Definition Second : Duration := 1000000000%Z.

Record Flags : Type := mkFlags {
  debug : bool;
  leaderElection : bool;
  syncInterval : Duration;
  pollInterval : Duration;
  maxReconcileRate : Z;
  namespace : string;
  enableExternalSecretStores : bool
}.

(** [zap.New(zap.UseDevMode(debug))], and the logger named from it. *)
Record ZapLogger : Type := mkZapLogger {
  devMode : bool
}.

Record Logger : Type := mkLogger {
  logr : ZapLogger;
  loggerName : string
}.

(** The fields of [ctrl.Options] that [main] sets; the durations are pointers. *)
Record ManagerOptions : Type := mkManagerOptions {
  SyncPeriod : option Duration;
  LeaderElection : bool;
  LeaderElectionID : string;
  LeaderElectionResourceLock : string;
  LeaseDuration : option Duration;
  RenewDeadline : option Duration
}.

(** [resourcelock.LeasesResourceLock] of client-go. *)
Definition LeasesResourceLock : string := "leases".

(** [controller.Options] of crossplane-runtime; [feature.Flags] is the set of
    enabled flags, the global rate limiter is known by its rate. *)
Record ControllerOptions : Type := mkControllerOptions {
  opt_Logger : Logger;
  MaxConcurrentReconciles : Z;
  PollInterval : Duration;
  GlobalRateLimiter : Z;
  Features : gset string
}.

Definition Flags_Enable (fs : gset string) (f : string) : gset string := {[ f ]} ∪ fs.
Definition Flags_Enabled (fs : gset string) (f : string) : bool := bool_decide (f ∈ fs).

(** The [v1alpha1.StoreConfig] that [main] creates. *)
Record StoreConfig : Type := mkStoreConfig {
  sc_Name : string;
  sc_DefaultScope : string
}.

(** What [main] calls: controller-runtime, the API machinery, the packages of
    this provider that register the scheme and set up the controllers, and
    the name of the feature flag. *)
Class Platform : Type := {
  ctrl_GetConfig : Host -> (RestConfig * option error) * Host;
  ratelimiter_LimitRESTConfig : RestConfig -> Z -> RestConfig;
  ctrl_NewManager : RestConfig -> ManagerOptions -> Host -> (Manager * option error) * Host;
  apis_AddToScheme : Manager -> Host -> option error * Host;
  kerrors_IsAlreadyExists : option error -> bool;
  features_EnableAlphaExternalSecretStores : string;
  Client_CreateStoreConfig : Manager -> StoreConfig -> Host -> option error * Host;
  upbound_Setup : Manager -> ControllerOptions -> Host -> option error * Host;
  Manager_Start : Manager -> Host -> option error * Host
}.

Context {platform : Platform}.

Inductive Step : Type :=
  | StepSetLogger (zl : ZapLogger)
  | StepGetConfig
  | StepNewManager (cfg : RestConfig) (o : ManagerOptions)
  | StepAddToScheme
  | StepInfo (msg key value : string)
  | StepCreateStoreConfig (sc : StoreConfig)
  | StepSetup (o : ControllerOptions)
  | StepStart.

Record Boot : Type := mkBoot {
  host : Host;
  steps : list Step
}.

Inductive Exit (A : Type) : Type :=
  | Went (a : A) (b : Boot)
  | Fatal (message : string) (err : error) (b : Boot).
Global Arguments Went {A} a b.
Global Arguments Fatal {A} message err b.

Definition Booting (A : Type) : Type := Boot -> Exit A.

#[global] Instance Booting_mret : MRet Booting := fun A a b => Went a b.
#[global] Instance Booting_mbind : MBind Booting := fun A B k m b =>
  match m b with
  | Went a b' => k a b'
  | Fatal msg e b' => Fatal msg e b'
  end.

(** A call that only leaves a trace: setting the global logger, logging. *)
Definition note (st : Step) : Booting unit :=
  fun b => Went tt {| host := host b; steps := steps b ++ [st] |}.

Definition hostcall {A} (st : Step) (f : Host -> A * Host) : Booting A :=
  fun b => let '(a, h) := f (host b) in
           Went a {| host := h; steps := steps b ++ [st] |}.

Definition kingpin_FatalIfError (err : option error) (message : string) : Booting unit :=
  fun b => match err with
           | Some e => Fatal message e b
           | None => Went tt b
           end.

(** The struct literals of [main]. *)
Definition managerOptions (f : Flags) : ManagerOptions :=
  {| SyncPeriod := Some (syncInterval f);
     LeaderElection := leaderElection f;
     LeaderElectionID := "crossplane-leader-election-provider-upbound";
     LeaderElectionResourceLock := LeasesResourceLock;
     LeaseDuration := Some (60 * Second)%Z;
     RenewDeadline := Some (50 * Second)%Z |}.

Definition controllerOptions (f : Flags) : ControllerOptions :=
  {| opt_Logger := {| logr := {| devMode := debug f |}; loggerName := "provider-upbound" |};
     MaxConcurrentReconciles := maxReconcileRate f;
     PollInterval := pollInterval f;
     GlobalRateLimiter := maxReconcileRate f;
     Features := ∅ |}.

Definition defaultStoreConfig (f : Flags) : StoreConfig :=
  {| sc_Name := "default"; sc_DefaultScope := namespace f |}.

(** [o.Features.Enable(flag)]: the options share the flag set by pointer. *)
Definition enableFeature (o : ControllerOptions) (flag : string) : ControllerOptions :=
  {| opt_Logger := opt_Logger o;
     MaxConcurrentReconciles := MaxConcurrentReconciles o;
     PollInterval := PollInterval o;
     GlobalRateLimiter := GlobalRateLimiter o;
     Features := Flags_Enable (Features o) flag |}.

Definition main (f : Flags) : Booting unit :=
  let zl := {| devMode := debug f |} in
  _ ← (if debug f then note (StepSetLogger zl) else mret tt);
  '(cfg, err) ← hostcall StepGetConfig ctrl_GetConfig;
  _ ← kingpin_FatalIfError err "Cannot get API server rest config";
  let limited := ratelimiter_LimitRESTConfig cfg (maxReconcileRate f) in
  '(mgr, err) ← hostcall (StepNewManager limited (managerOptions f))
                         (ctrl_NewManager limited (managerOptions f));
  _ ← kingpin_FatalIfError err "Cannot create controller manager";
  err ← hostcall StepAddToScheme (apis_AddToScheme mgr);
  _ ← kingpin_FatalIfError err "Cannot add Upbound APIs to scheme";
  o ← (if enableExternalSecretStores f
       then
         let o := enableFeature (controllerOptions f) features_EnableAlphaExternalSecretStores in
         _ ← note (StepInfo "Alpha feature enabled" "flag"
                            features_EnableAlphaExternalSecretStores);
         err ← hostcall (StepCreateStoreConfig (defaultStoreConfig f))
                        (Client_CreateStoreConfig mgr (defaultStoreConfig f));
         _ ← kingpin_FatalIfError (resource_Ignore kerrors_IsAlreadyExists err)
                                  "cannot create default store config";
         mret o
       else mret (controllerOptions f));
  err ← hostcall (StepSetup o) (upbound_Setup mgr o);
  _ ← kingpin_FatalIfError err "Cannot setup Upbound controllers";
  err ← hostcall StepStart (Manager_Start mgr);
  kingpin_FatalIfError err "Cannot start controller manager".

(** ** Vocabulary of the statements about [main] *)


Definition isStart (st : Step) : bool :=
  match st with
  | StepStart => true
  | _ => false
  end.

Definition isCreateStoreConfig (st : Step) : bool :=
  match st with
  | StepCreateStoreConfig _ => true
  | _ => false
  end.

(** The state in which [main] ended, fatally or not. *)
Definition exitBoot {A} (x : Exit A) : Boot :=
  match x with
  | Went _ b => b
  | Fatal _ _ b => b
  end.

(** The options a [StepSetup] passed have the flag enabled. *)
Definition setupWith (flag : string) (st : Step) : bool :=
  match st with
  | StepSetup o => Flags_Enabled (Features o) flag
  | _ => false
  end.

Definition isSetup (st : Step) : bool :=
  match st with
  | StepSetup _ => true
  | _ => false
  end.

End Main.

(** * The controller against a small remote

    A remote that stores grants under their structural key, with HTTP status
    codes as the errors of the API client, runs the statements above on the
    record of a team "sre" given "admin" on repository "infra" of "acme". *)

Definition Key : Type := string * string * string.

Record Remote : Type := mkRemote {
  grants : list (Key * string);
  clock : Z
}.

(** The controller's types on this remote: errors are HTTP status codes,
    permission levels and the kinds of other resources are strings, the
    configuration is a name and the Kubernetes client carries nothing. *)
Abbreviation RError := (error (ForeignError:=nat)).
Abbreviation RPermission := (Permission (PermissionType:=string)).
Abbreviation RManaged := (Managed (PermissionType:=string) (OtherManaged:=string)).
Abbreviation RState :=
  (State (World:=Remote) (PermissionType:=string) (OtherManaged:=string)).
Abbreviation RClient :=
  (Client (World:=Remote) (ForeignError:=nat) (PermissionType:=string)).
Abbreviation RExternal :=
  (external (World:=Remote) (ForeignError:=nat) (PermissionType:=string)).
Abbreviation RTracker :=
  (Tracker (World:=Remote) (ForeignError:=nat) (PermissionType:=string)
           (OtherManaged:=string)).
Abbreviation RConnector :=
  (connector (World:=Remote) (ForeignError:=nat) (KubeClient:=unit)
             (PermissionType:=string) (OtherManaged:=string)).

Definition granted (k : Key) (w : Remote) : bool :=
  bool_decide (k ∈ (fst <$> grants w)).

Definition keyOf (p : GetParameters) : Key :=
  (get_Organization p, get_Repository p, get_TeamID p).

Definition httpError (status : nat) : option (RError) := Some (foreignError status).

(** Status 404 at the root of the error chain. *)
Definition isNotFound (err : option (RError)) : bool :=
  match err with
  | Some e => match errors_Cause e with
              | foreignError 404 => true
              | _ => false
              end
  | None => false
  end.

Definition remoteClient : RClient :=
  {| Client_Get := fun p w =>
       if granted (keyOf p) w then (None, w) else (httpError 404, w);
     Client_Create := fun p w =>
       let k := (create_Organization p, create_Repository p, create_TeamID p) in
       if granted k w then (httpError 409, w)
       else (None, {| grants := (k, create_Permission p) :: grants w; clock := clock w |});
     Client_Delete := fun p w =>
       if granted (keyOf p) w
       then (None, {| grants := filter (fun g => g.1 <> keyOf p) (grants w); clock := clock w |})
       else (httpError 404, w) |}.

(** A remote that is down: every call fails with status 500. *)
Definition downClient : RClient :=
  {| Client_Get := fun _ w => (httpError 500, w);
     Client_Create := fun _ w => (httpError 500, w);
     Client_Delete := fun _ w => (httpError 500, w) |}.

Definition sre_on_infra : RPermission :=
  {| Meta := {| Name := "sre-infra-admin"; Annotations := ∅ |};
     Spec := {| ForProvider := {| OrganizationName := "acme"; TeamID := Some "sre";
                                  Permission_level := "admin"; Repository := Some "infra" |};
                DeletionPolicy := "Delete";
                ManagementPolicies := [];
                ProviderConfigReference := Some "default";
                PublishConnectionDetailsTo := None;
                WriteConnectionSecretToReference := None |};
     Status := {| ResourceStatus := {| Conditions := [] |} |} |}.


Definition emptyRemote : Remote := {| grants := []; clock := 1700000000 |}.
Definition grantedRemote : Remote :=
  {| grants := [(("acme", "infra", "sre"), "admin")]; clock := 1700000060 |}.

Definition start (w : Remote) : RState :=
  {| outside := w; calls := [] |}.

Definition remoteExternal : RExternal :=
  {| repositorypermission := remoteClient |}.
Definition downExternal : RExternal :=
  {| repositorypermission := downClient |}.

(** Configuration is the name of the referenced provider configuration. *)
Definition newConfig (_ : unit) (mg : RManaged) (w : Remote)
  : (string * option (RError)) * Remote :=
  match mg with
  | MgPermission (Some cr) =>
      match ProviderConfigReference (Spec cr) with
      | Some name => ((name, None), w)
      | None => (("", Some (errorString "no providerConfigRef given")), w)
      end
  | _ => (("", Some (errorString "no providerConfigRef given")), w)
  end.

Definition newClient (_ : string) : RClient := remoteClient.

(** The imports of the controller on this remote. *)
#[global] Instance remoteImports
  : Imports (World:=Remote) (ForeignError:=nat) (Config:=string) (KubeClient:=unit)
            (PermissionType:=string) (OtherManaged:=string) :=
  {| uperrors_IsNotFound := isNotFound;
     metav1_Now := clock;
     upclient_NewConfig := newConfig;
     repositorypermission_NewClient := newClient |}.

Definition tracking : RTracker :=
  {| Track := fun _ w => (None, w) |}.
Definition trackingDown : RTracker :=
  {| Track := fun _ w => (httpError 500, w) |}.

Definition theConnector : RConnector :=
  {| kube := (); usage := tracking |}.

Definition infra : RManaged :=
  MgPermission (Some sre_on_infra).

(** A managed resource of another kind of this provider. *)
Definition aRobot : RManaged :=
  MgOther "Robot".

(** The record after its permission level was edited from "admin" to "read". *)
Definition editedToRead : RPermission :=
  {| Meta := Meta sre_on_infra;
     Spec := {| ForProvider := {| OrganizationName := "acme"; TeamID := Some "sre";
                                  Permission_level := "read"; Repository := Some "infra" |};
                DeletionPolicy := "Delete";
                ManagementPolicies := [];
                ProviderConfigReference := Some "default";
                PublishConnectionDetailsTo := None;
                WriteConnectionSecretToReference := None |};
     Status := Status sre_on_infra |}.

(** The record with no provider configuration referenced. *)
Definition withoutConfig : RPermission :=
  {| Meta := Meta sre_on_infra;
     Spec := {| ForProvider := ForProvider (Spec sre_on_infra);
                DeletionPolicy := "Delete";
                ManagementPolicies := [];
                ProviderConfigReference := None;
                PublishConnectionDetailsTo := None;
                WriteConnectionSecretToReference := None |};
     Status := Status sre_on_infra |}.

Definition bound : RPermission :=
  SetExternalName sre_on_infra (repositoryIdentifier sre_on_infra).

Definition boundAvailable : RPermission :=
  Status_SetConditions bound [Available 1700000000%Z].

(** The record as the reconciler leaves it after a failed sync: Synced is
    False, and Ready was last seen False. *)
Definition Synced_False : Condition :=
  {| cond_Type := "Synced"; cond_Status := "False"; cond_LastTransitionTime := 1699999000%Z;
     cond_Reason := "ReconcileError"; cond_Message := "cannot reach the API" |}.

Definition Ready_False : Condition :=
  {| cond_Type := "Ready"; cond_Status := "False"; cond_LastTransitionTime := 1699999000%Z;
     cond_Reason := "Unavailable"; cond_Message := "" |}.

Definition unsynced : RPermission :=
  {| Meta := Meta sre_on_infra;
     Spec := Spec sre_on_infra;
     Status := {| ResourceStatus := {| Conditions := [Synced_False; Ready_False] |} |} |}.

(** A cluster for [main]: the host is the list of the store configurations
    that exist; creating one that exists fails with status 409. *)
Definition isAlreadyExists (err : option RError) : bool :=
  match err with
  | Some e => match errors_Cause e with
              | foreignError 409 => true
              | _ => false
              end
  | None => false
  end.

#[global] Instance clusterPlatform
  : Platform (Host:=list string) (ForeignError:=nat) (RestConfig:=string * Z)
             (Manager:=unit) :=
  {| ctrl_GetConfig := fun h => ((("https://kubernetes.default.svc", 0%Z), None), h);
     ratelimiter_LimitRESTConfig := fun cfg rate => (cfg.1, rate);
     ctrl_NewManager := fun _ _ h => ((tt, None), h);
     apis_AddToScheme := fun _ h => (None, h);
     kerrors_IsAlreadyExists := isAlreadyExists;
     features_EnableAlphaExternalSecretStores := "EnableAlphaExternalSecretStores";
     Client_CreateStoreConfig := fun _ sc h =>
       if bool_decide (sc_Name sc ∈ h) then (httpError 409, h) else (None, sc_Name sc :: h);
     upbound_Setup := fun _ _ h => (None, h);
     Manager_Start := fun _ h => (None, h) |}.

(** The default flags, with external secret stores switched on. *)
Definition storesEnabled : Flags :=
  {| debug := false;
     leaderElection := false;
     syncInterval := (3600 * Second)%Z;
     pollInterval := (60 * Second)%Z;
     maxReconcileRate := 10;
     namespace := "crossplane-system";
     enableExternalSecretStores := true |}.


(** A first start: no store configuration yet. *)
Definition firstStart : Boot (Host:=list string) (RestConfig:=string * Z) :=
  {| host := []; steps := [] |}.

(** A restart: the default store configuration is there already. *)
Definition restarted : Boot (Host:=list string) (RestConfig:=string * Z) :=
  {| host := ["default"]; steps := [] |}.

(** * Properties *)

Section Properties.

Context {World ForeignError Config KubeClient PermissionType OtherManaged : Type}.
Context {imports : Imports (World:=World) (ForeignError:=ForeignError) (Config:=Config)
                           (KubeClient:=KubeClient) (PermissionType:=PermissionType)
                           (OtherManaged:=OtherManaged)}.

(** The controller's types at the parameters of this section. *)
Local Abbreviation error := (error (ForeignError:=ForeignError)).
Local Abbreviation Permission := (Permission (PermissionType:=PermissionType)).
Local Abbreviation Managed :=
  (Managed (PermissionType:=PermissionType) (OtherManaged:=OtherManaged)).
Local Abbreviation Call := (Call (PermissionType:=PermissionType) (OtherManaged:=OtherManaged)).
Local Abbreviation State :=
  (State (World:=World) (PermissionType:=PermissionType) (OtherManaged:=OtherManaged)).
Local Abbreviation external :=
  (external (World:=World) (ForeignError:=ForeignError) (PermissionType:=PermissionType)).
Local Abbreviation connector :=
  (connector (World:=World) (ForeignError:=ForeignError) (KubeClient:=KubeClient)
             (PermissionType:=PermissionType) (OtherManaged:=OtherManaged)).

(** ** Status conditions *)

Lemma Condition_Equal_refl (c : Condition) : Condition_Equal c c = true.
Proof.
  unfold Condition_Equal. rewrite !bool_decide_eq_true_2 by reflexivity. reflexivity.
Qed.

(** After the loop, either the type was met and the first condition of that
    type agrees with the new one, or no condition has that type. *)
Lemma setCondition_loop_find (new : Condition) (cs : list Condition) :
  match setCondition_loop new cs with
  | (cs', true) =>
      exists c, List.find (fun c => bool_decide (cond_Type c = cond_Type new)) cs' = Some c
                /\ Condition_Equal c new = true
  | (cs', false) =>
      List.find (fun c => bool_decide (cond_Type c = cond_Type new)) cs' = None
  end.
Proof.
  induction cs as [|existing rest IH]; simpl; [reflexivity|].
  destruct (setCondition_loop new rest) as [rest' found].
  destruct (bool_decide (cond_Type existing = cond_Type new)) eqn:Hty.
  - destruct (Condition_Equal existing new) eqn:Heq; simpl.
    + rewrite Hty. eauto.
    + rewrite bool_decide_eq_true_2 by reflexivity.
      eauto using Condition_Equal_refl.
  - destruct found; simpl; rewrite Hty; exact IH.
Qed.

Lemma setCondition_find (cs : list Condition) (new : Condition) :
  exists c, List.find (fun c => bool_decide (cond_Type c = cond_Type new)) (setCondition cs new) = Some c
            /\ Condition_Equal c new = true.
Proof.
  unfold setCondition.
  pose proof (setCondition_loop_find new cs) as H.
  destruct (setCondition_loop new cs) as [cs' [|]]; [exact H|].
  exists new. split; [|apply Condition_Equal_refl].
  induction cs' as [|c cs' IH]; simpl in *.
  - rewrite bool_decide_eq_true_2 by reflexivity. reflexivity.
  - destruct (bool_decide (cond_Type c = cond_Type new)); [discriminate|auto].
Qed.

(** Setting one condition makes it the condition read back for its type, up
    to the transition time (an [Equal] condition already there is kept). *)
Lemma GetCondition_SetConditions (cr : Permission) (new : Condition) :
  Condition_Equal (GetCondition (Status_SetConditions cr [new]) (cond_Type new)) new = true.
Proof.
  unfold GetCondition, ConditionedStatus_GetCondition, Status_SetConditions,
    ConditionedStatus_SetConditions; simpl.
  destruct (setCondition_find (Conditions (ResourceStatus (Status cr))) new) as (c & -> & Hc).
  exact Hc.
Qed.

Lemma Condition_Equal_Available (c : Condition) (now : Time) :
  Condition_Equal c (Available now) = true ->
  cond_Type c = TypeReady /\ cond_Status c = ConditionTrue /\ cond_Reason c = ReasonAvailable.
Proof.
  unfold Condition_Equal. rewrite !andb_true_iff, !bool_decide_eq_true. simpl. tauto.
Qed.

(** ** Running the monad *)

Ltac go_unfold :=
  unfold mbind, mret, Go_mbind, Go_mret, Go_bind, Go_ret, outcall, deref, panic.

(** ** Observe *)

(** C1. For a Permission record on which the API's Get succeeds, [Observe]
    makes exactly that one call, returns exists and up-to-date both true with
    a nil error, and leaves the record with its Ready condition reading
    Available (status True, reason Available); metadata and spec are as
    before, whatever the spec holds. *)
Theorem Observe_Get_succeeds (c : external) (cr : Permission) (s : State) (w' : World) :
  Client_Get (repositorypermission c) (getParameters cr) (outside s) = (None, w') ->
  let cr' := Status_SetConditions cr [Available (metav1_Now w')] in
  Observe c (MgPermission (Some cr)) s
    = Returned (MgPermission (Some cr'), observedUpToDate, None)
               (logged s w' (CallGet (getParameters cr)))
  /\ ResourceExists observedUpToDate = true
  /\ ResourceUpToDate observedUpToDate = true
  /\ cond_Type (GetCondition cr' TypeReady) = TypeReady
  /\ cond_Status (GetCondition cr' TypeReady) = ConditionTrue
  /\ cond_Reason (GetCondition cr' TypeReady) = ReasonAvailable
  /\ Meta cr' = Meta cr
  /\ Spec cr' = Spec cr.
Proof.
  intros Hget cr'. split.
  - unfold Observe; go_unfold; simpl; unfold v1_Available. rewrite Hget. reflexivity.
  - do 2 (split; [reflexivity|]).
    pose proof (GetCondition_SetConditions cr (Available (metav1_Now w'))) as Heq.
    apply Condition_Equal_Available in Heq. simpl in Heq. tauto.
Qed.

(** C2. For a Permission record on which the API's Get fails with an error
    that [IsNotFound] accepts, [Observe] returns the observation with exists
    false and a nil error, and leaves the record as it was. *)
Theorem Observe_Get_NotFound (c : external) (cr : Permission) (s : State)
    (e : error) (w' : World) :
  Client_Get (repositorypermission c) (getParameters cr) (outside s) = (Some e, w') ->
  uperrors_IsNotFound (Some e) = true ->
  exists obs,
    Observe c (MgPermission (Some cr)) s
      = Returned (MgPermission (Some cr), obs, None)
                 (logged s w' (CallGet (getParameters cr)))
    /\ ResourceExists obs = false.
Proof.
  intros Hget Hnf. exists ExternalObservation_zero. split; [|reflexivity].
  unfold Observe; go_unfold; simpl; unfold v1_Available. rewrite Hget. unfold resource_Ignore. rewrite Hnf. reflexivity.
Qed.

(** What [Observe] returns as its error, given what [Get] returned. *)
Lemma Observe_error (c : external) (cr : Permission) (s : State) :
  exists mg' obs,
    Observe c (MgPermission (Some cr)) s
      = Returned (mg', obs,
                  match (Client_Get (repositorypermission c) (getParameters cr) (outside s)).1 with
                  | Some e => if uperrors_IsNotFound (Some e) then None
                              else Some (withMessage e "failed to get team")
                  | None => None
                  end)
                 (logged s (Client_Get (repositorypermission c) (getParameters cr) (outside s)).2
                         (CallGet (getParameters cr))).
Proof.
  unfold Observe; go_unfold; simpl; unfold v1_Available.
  destruct (Client_Get _ _ _) as [[e|] w']; simpl; eauto.
  unfold resource_Ignore. destruct (uperrors_IsNotFound (Some e)); simpl; eauto.
Qed.

(** C3. For a Permission record, [Observe] returns a non-nil error exactly
    when the API's Get fails with an error that [IsNotFound] rejects; the
    error returned is then that error wrapped with "failed to get team", so
    the call does not come back as a clean exists-false observation. *)
Theorem Observe_error_iff (c : external) (cr : Permission) (s : State) :
  exists mg' obs err s',
    Observe c (MgPermission (Some cr)) s = Returned (mg', obs, err) s'
    /\ (is_Some err <->
        exists e, (Client_Get (repositorypermission c) (getParameters cr) (outside s)).1 = Some e
                  /\ uperrors_IsNotFound (Some e) = false)
    /\ (forall e,
          (Client_Get (repositorypermission c) (getParameters cr) (outside s)).1 = Some e ->
          uperrors_IsNotFound (Some e) = false ->
          err = Some (withMessage e "failed to get team")
          /\ errors_Cause (withMessage e "failed to get team") = errors_Cause e
          /\ ~ (err = None /\ ResourceExists obs = false)).
Proof.
  destruct (Observe_error c cr s) as (mg' & obs & Hrun).
  eexists mg', obs, _, _. split; [exact Hrun|].
  destruct (Client_Get _ _ _) as [[e|] w']; simpl.
  - destruct (uperrors_IsNotFound (Some e)) eqn:Hnf; split.
    + split; [intros [? [=]]|]. intros (e' & [= <-] & Hf). congruence.
    + intros e' [= <-] Hf. congruence.
    + split; [eauto|]. intros _. eauto.
    + intros e' [= <-] _. split; [reflexivity|]. split; [reflexivity|].
      intros [[=] _].
  - split.
    + split; [intros [? [=]]|]. intros (e' & [=] & _).
    + intros e' [=].
Qed.

(** ** Create *)

Lemma externalName_SetExternalName (cr : Permission) (name : string) :
  externalName (Meta (SetExternalName cr name)) = Some name.
Proof.
  unfold externalName, SetExternalName, meta_SetExternalName, meta_AddAnnotations; simpl.
  apply lookup_union_Some_l, lookup_singleton_eq.
Qed.

Lemma GetExternalName_SetExternalName (cr : Permission) (name : string) :
  meta_GetExternalName (Meta (SetExternalName cr name)) = name.
Proof. unfold meta_GetExternalName. rewrite externalName_SetExternalName. reflexivity. Qed.

(** C4. For a Permission record: when the API's Create succeeds, [Create]
    returns the empty creation result with a nil error and the record comes
    back with its external name set to its repository identifier, spec and
    status untouched; when the API's Create fails, [Create] returns that error
    wrapped, non-nil, and the record comes back unchanged, so an external name
    that was unset is still unset. *)
Theorem Create_binds_external_name (c : external) (cr : Permission) (s : State) :
  (forall w',
     Client_Create (repositorypermission c) (createParameters cr) (outside s) = (None, w') ->
     let cr' := SetExternalName cr (repositoryIdentifier cr) in
     Create c (MgPermission (Some cr)) s
       = Returned (MgPermission (Some cr'), ExternalCreation_zero, None)
                  (logged s w' (CallCreate (createParameters cr)))
     /\ externalName (Meta cr') = Some (repositoryIdentifier cr)
     /\ meta_GetExternalName (Meta cr') = repositoryIdentifier cr
     /\ Spec cr' = Spec cr /\ Status cr' = Status cr)
  /\ (forall e w',
        Client_Create (repositorypermission c) (createParameters cr) (outside s) = (Some e, w') ->
        exists cr' err,
          Create c (MgPermission (Some cr)) s
            = Returned (MgPermission (Some cr'), ExternalCreation_zero, Some err)
                       (logged s w' (CallCreate (createParameters cr)))
          /\ err = withMessage e "failed to create repository permission"
          /\ cr' = cr
          /\ (externalName (Meta cr) = None -> externalName (Meta cr') = None)).
Proof.
  split.
  - intros w' Hc cr'. split; [|split; [|split]].
    + unfold Create; go_unfold; simpl. rewrite Hc. reflexivity.
    + apply externalName_SetExternalName.
    + apply GetExternalName_SetExternalName.
    + split; reflexivity.
  - intros e w' Hc. exists cr, (withMessage e "failed to create repository permission").
    split; [|split; [reflexivity|split; [reflexivity|intros Hunset; exact Hunset]]].
    unfold Create; go_unfold; simpl. rewrite Hc. reflexivity.
Qed.

(** ** Update *)

(** C7. [Update] is a no-op on every input, whatever the dynamic type of the
    managed resource (nil and nil pointers included): it returns the empty
    update result and a nil error, the resource comes back as it went in, and
    the world and the call log are as before. *)
Theorem Update_noop (c : external) (mg : Managed) (s : State) :
  Update c mg s = Returned (mg, ExternalUpdate_zero, None) s.
Proof. reflexivity. Qed.

(** ** Delete *)

(** What [Delete] returns, given what the API's Delete returned. *)
Lemma Delete_result (c : external) (cr : Permission) (s : State) :
  Delete c (MgPermission (Some cr)) s
    = Returned (MgPermission (Some cr),
                match (Client_Delete (repositorypermission c) (getParameters cr) (outside s)).1 with
                | Some e => if uperrors_IsNotFound (Some e) then None
                            else Some (withMessage e "cannot delete repositroy permission")
                | None => None
                end)
               (logged s (Client_Delete (repositorypermission c) (getParameters cr) (outside s)).2
                       (CallDelete (getParameters cr))).
Proof.
  unfold Delete; go_unfold; simpl. unfold resource_Ignore.
  destruct (Client_Delete _ _ _) as [[e|] w']; simpl.
  - destruct (uperrors_IsNotFound (Some e)); reflexivity.
  - destruct (uperrors_IsNotFound None); reflexivity.
Qed.

(** C5. For a Permission record, [Delete] returns a nil error when the API's
    Delete succeeds and when it fails with an error that [IsNotFound] accepts,
    and the error wrapped, non-nil, for any other failure. Hence two calls in
    a row, on a remote that answers both times that the object is gone, both
    return a nil error. *)
Theorem Delete_ignores_NotFound (c : external) (cr : Permission) (s : State) :
  let mg := MgPermission (Some cr) in
  let del := Client_Delete (repositorypermission c) (getParameters cr) in
  (forall w', del (outside s) = (None, w') ->
     Delete c mg s = Returned (mg, None) (logged s w' (CallDelete (getParameters cr))))
  /\ (forall e w', del (outside s) = (Some e, w') -> uperrors_IsNotFound (Some e) = true ->
        Delete c mg s = Returned (mg, None) (logged s w' (CallDelete (getParameters cr))))
  /\ (forall e w', del (outside s) = (Some e, w') -> uperrors_IsNotFound (Some e) = false ->
        Delete c mg s
          = Returned (mg, Some (withMessage e "cannot delete repositroy permission"))
                     (logged s w' (CallDelete (getParameters cr))))
  /\ (goneAnswer (del (outside s)) ->
      goneAnswer (del (del (outside s)).2) ->
      exists s'', DeleteTwice c mg s = Returned (None, None) s'').
Proof.
  intros mg del. subst mg del.
  repeat split.
  - intros w' H. rewrite Delete_result, H. reflexivity.
  - intros e w' H Hnf. rewrite Delete_result, H. simpl. rewrite Hnf. reflexivity.
  - intros e w' H Hnf. rewrite Delete_result, H. simpl. rewrite Hnf. reflexivity.
  - intros H1 H2. unfold DeleteTwice. go_unfold.
    rewrite Delete_result. cbv beta iota. rewrite Delete_result. simpl.
    unfold goneAnswer in *.
    destruct (Client_Delete _ _ (outside s)) as [[e1|] w1]; simpl in *;
      destruct (Client_Delete _ _ w1) as [[e2|] w2]; simpl in *;
      repeat match goal with
             | H : _ \/ _ |- _ => destruct H as [H|H]; [try discriminate|]
             | H : uperrors_IsNotFound _ = true |- _ => rewrite H
             end; eauto.
Qed.

(** ** Connect *)

(** C6. [Connect] goes through kind check, usage tracking, configuration
    resolution and client construction in that order, and stops at the first
    failure with that step's error: a resource that is not a Permission gets
    the wrong-kind error before any call is made; a failing [Track] gets its
    error wrapped with "cannot track ProviderConfig usage" and no
    configuration is resolved; a failing [NewConfig], reached only after
    [Track] succeeded, gets its error wrapped with "cannot create new client";
    a client is returned only when all of these succeeded, and it is the one
    built from the resolved configuration. *)
Theorem Connect_steps (c : connector) (mg : Managed) (s : State) :
  (isPermission mg = false -> Connect c mg s = Returned (None, wrongKind) s)
  /\ (forall e w1,
        isPermission mg = true ->
        Track (usage c) mg (outside s) = (Some e, w1) ->
        Connect c mg s
          = Returned (None, Some (withMessage e errTrackPCUsage)) (logged s w1 (CallTrack mg)))
  /\ (forall w1 cfg e w2,
        isPermission mg = true ->
        Track (usage c) mg (outside s) = (None, w1) ->
        upclient_NewConfig (kube c) mg w1 = ((cfg, Some e), w2) ->
        Connect c mg s
          = Returned (None, Some (withMessage e errNewClient))
                     (logged (logged s w1 (CallTrack mg)) w2 (CallNewConfig mg)))
  /\ (forall w1 cfg w2,
        isPermission mg = true ->
        Track (usage c) mg (outside s) = (None, w1) ->
        upclient_NewConfig (kube c) mg w1 = ((cfg, None), w2) ->
        Connect c mg s
          = Returned (Some {| repositorypermission := repositorypermission_NewClient cfg |}, None)
                     (logged (logged s w1 (CallTrack mg)) w2 (CallNewConfig mg)))
  /\ (forall ext err s',
        Connect c mg s = Returned (Some ext, err) s' ->
        err = None
        /\ isPermission mg = true
        /\ exists w1 cfg w2,
             Track (usage c) mg (outside s) = (None, w1)
             /\ upclient_NewConfig (kube c) mg w1 = ((cfg, None), w2)
             /\ ext = {| repositorypermission := repositorypermission_NewClient cfg |}
             /\ calls s' = calls s ++ [CallTrack mg; CallNewConfig mg]).
Proof.
  split; [|split; [|split; [|split]]].
  - destruct mg; [reflexivity|discriminate|reflexivity].
  - intros e w1 Hk Ht. destruct mg as [|ptr|]; try discriminate.
    unfold Connect; go_unfold; simpl. rewrite Ht. reflexivity.
  - intros w1 cfg e w2 Hk Ht Hc. destruct mg as [|ptr|]; try discriminate.
    unfold Connect; go_unfold; simpl. rewrite Ht. simpl. rewrite Hc. reflexivity.
  - intros w1 cfg w2 Hk Ht Hc. destruct mg as [|ptr|]; try discriminate.
    unfold Connect; go_unfold; simpl. rewrite Ht. simpl. rewrite Hc. reflexivity.
  - intros ext err s'. destruct mg as [|ptr|]; try discriminate.
    unfold Connect; go_unfold; simpl.
    destruct (Track _ _ _) as [[e|] w1] eqn:Ht; simpl; [discriminate|].
    destruct (upclient_NewConfig _ _ _) as [[cfg [e|]] w2] eqn:Hc; simpl; [discriminate|].
    intros [= <- <- <-]. split; [reflexivity|]. split; [reflexivity|].
    exists w1, cfg, w2. simpl. rewrite <- app_assoc. auto.
Qed.

(** ** Resources of another kind *)

(** C9. Given a managed resource that is not a Permission (a nil interface
    or a value of another type), [Observe], [Create] and [Delete], like
    [Connect], return the error "managed resource is not a RepositoryPermission
    custom resource" next to a zero result; the resource, the world and the
    call log are as before, so no API call was made. *)
Theorem not_a_Permission (c : external) (k : connector) (mg : Managed) (s : State) :
  isPermission mg = false ->
  Observe c mg s = Returned (mg, ExternalObservation_zero, wrongKind) s
  /\ Create c mg s = Returned (mg, ExternalCreation_zero, wrongKind) s
  /\ Delete c mg s = Returned (mg, wrongKind) s
  /\ Connect k mg s = Returned (None, wrongKind) s
  /\ (wrongKind : option error)
     = Some (errorString "managed resource is not a RepositoryPermission custom resource").
Proof.
  intros Hk. destruct mg; try discriminate; repeat split.
Qed.

(** ** Nil pointers *)

(** A nil [*Permission] inside the interface passes the type assertion, and
    reading its spec panics before any call is made. *)
Lemma nil_Permission_panics (c : external) (s : State) :
  (exists r, Observe c (MgPermission None) s = Panicked r)
  /\ (exists r, Create c (MgPermission None) s = Panicked r)
  /\ (exists r, Delete c (MgPermission None) s = Panicked r).
Proof. repeat split; eexists; reflexivity. Qed.


(** ** The external name over the life of a record *)









(** ** More on status conditions *)

Lemma Condition_Equal_Type (c new : Condition) :
  Condition_Equal c new = true -> cond_Type c = cond_Type new.
Proof.
  unfold Condition_Equal. rewrite !andb_true_iff, !bool_decide_eq_true. tauto.
Qed.

Lemma Condition_Equal_trans (a b c : Condition) :
  Condition_Equal a b = true -> Condition_Equal b c = true -> Condition_Equal a c = true.
Proof.
  unfold Condition_Equal. rewrite !andb_true_iff, !bool_decide_eq_true.
  intros (((-> & ->) & ->) & ->). tauto.
Qed.

Lemma find_app_miss {A} (f : A -> bool) (l : list A) (x : A) :
  f x = false -> List.find f (l ++ [x]) = List.find f l.
Proof.
  intros Hx. induction l as [|a l IH]; simpl.
  - rewrite Hx. reflexivity.
  - destruct (f a); [reflexivity|exact IH].
Qed.

Lemma find_app_last {A} (f : A -> bool) (l : list A) (x : A) :
  List.find f (l ++ [x])
  = match List.find f l with
    | Some a => Some a
    | None => if f x then Some x else None
    end.
Proof.
  induction l as [|a l IH]; simpl; [reflexivity|].
  destruct (f a); [reflexivity|exact IH].
Qed.

(** The loop keeps the length and does not touch conditions of other types. *)
Lemma setCondition_loop_length (new : Condition) (cs : list Condition) :
  length (setCondition_loop new cs).1 = length cs.
Proof.
  induction cs as [|existing rest IH]; simpl; [reflexivity|].
  destruct (setCondition_loop new rest) as [rest' found]; simpl in *.
  destruct (bool_decide _); [destruct (Condition_Equal _ _)|]; simpl; congruence.
Qed.

Lemma setCondition_loop_find_other (new : Condition) (cs : list Condition) (ct : string) :
  cond_Type new <> ct ->
  List.find (fun c => bool_decide (cond_Type c = ct)) (setCondition_loop new cs).1
  = List.find (fun c => bool_decide (cond_Type c = ct)) cs.
Proof.
  intros Hne. induction cs as [|existing rest IH]; simpl; [reflexivity|].
  destruct (setCondition_loop new rest) as [rest' found]; simpl in *.
  destruct (bool_decide (cond_Type existing = cond_Type new)) eqn:Hty.
  - apply bool_decide_eq_true in Hty.
    assert (bool_decide (cond_Type existing = ct) = false) as He
      by (apply bool_decide_eq_false; congruence).
    assert (bool_decide (cond_Type new = ct) = false) as Hn
      by (apply bool_decide_eq_false; congruence).
    destruct (Condition_Equal existing new); simpl; rewrite ?He, ?Hn; exact IH.
  - simpl. destruct (bool_decide (cond_Type existing = ct)); [reflexivity|exact IH].
Qed.

Lemma setCondition_find_other (cs : list Condition) (new : Condition) (ct : string) :
  cond_Type new <> ct ->
  List.find (fun c => bool_decide (cond_Type c = ct)) (setCondition cs new)
  = List.find (fun c => bool_decide (cond_Type c = ct)) cs.
Proof.
  intros Hne. unfold setCondition.
  pose proof (setCondition_loop_find_other new cs ct Hne) as H.
  destruct (setCondition_loop new cs) as [cs' [|]]; simpl in H; [exact H|].
  rewrite find_app_miss; [exact H|]. apply bool_decide_eq_false. exact Hne.
Qed.

Lemma setCondition_length (cs : list Condition) (new : Condition) :
  length cs <= length (setCondition cs new) <= S (length cs).
Proof.
  unfold setCondition. pose proof (setCondition_loop_length new cs) as H.
  destruct (setCondition_loop new cs) as [cs' [|]]; simpl in H.
  - lia.
  - rewrite length_app. simpl. lia.
Qed.

(** After the loop every condition of the new condition's type agrees with it. *)
Lemma setCondition_loop_settles (new : Condition) (cs : list Condition) :
  Forall (fun c => cond_Type c = cond_Type new -> Condition_Equal c new = true)
         (setCondition_loop new cs).1.
Proof.
  induction cs as [|existing rest IH]; simpl; [constructor|].
  destruct (setCondition_loop new rest) as [rest' found]; simpl in *.
  destruct (bool_decide (cond_Type existing = cond_Type new)) eqn:Hty.
  - destruct (Condition_Equal existing new) eqn:Heq; simpl; constructor; auto.
    intros _. apply Condition_Equal_refl.
  - simpl. constructor; [|exact IH].
    apply bool_decide_eq_false in Hty. intros Heq. contradiction.
Qed.

(** On a list that already agrees with the new condition the loop changes
    nothing. *)
Lemma setCondition_loop_settled (new : Condition) (cs : list Condition) :
  Forall (fun c => cond_Type c = cond_Type new -> Condition_Equal c new = true) cs ->
  setCondition_loop new cs
  = (cs, existsb (fun c => bool_decide (cond_Type c = cond_Type new)) cs).
Proof.
  induction 1 as [|existing rest Hex _ IH]; simpl; [reflexivity|].
  rewrite IH. destruct (bool_decide (cond_Type existing = cond_Type new)) eqn:Hty; simpl.
  - apply bool_decide_eq_true in Hty. rewrite (Hex Hty). reflexivity.
  - reflexivity.
Qed.

(** Setting a condition a second time, with another transition time or not,
    leaves the list as the first time left it. *)
Lemma setCondition_again (cs : list Condition) (new new' : Condition) :
  Condition_Equal new new' = true ->
  setCondition (setCondition cs new) new' = setCondition cs new.
Proof.
  intros Heq. pose proof (Condition_Equal_Type _ _ Heq) as Hty.
  assert (Hall : Forall (fun c => cond_Type c = cond_Type new' -> Condition_Equal c new' = true)
                        (setCondition cs new)).
  { unfold setCondition. pose proof (setCondition_loop_settles new cs) as Hs.
    destruct (setCondition_loop new cs) as [cs' found]; simpl in Hs.
    assert (Hs' : Forall (fun c => cond_Type c = cond_Type new' ->
                                   Condition_Equal c new' = true) cs').
    { eapply Forall_impl; [exact Hs|]. simpl. intros c Hc Hc'.
      eapply Condition_Equal_trans; [apply Hc; congruence|exact Heq]. }
    destruct found; [exact Hs'|].
    apply Forall_app. split; [exact Hs'|]. constructor; [|constructor]. auto. }
  destruct (setCondition_find cs new) as (c & Hfind & _).
  unfold setCondition at 1. rewrite (setCondition_loop_settled _ _ Hall).
  replace (existsb _ _) with true; [reflexivity|].
  symmetry. apply existsb_exists.
  apply find_some in Hfind as [Hin Hc]. exists c. split; [exact Hin|].
  apply bool_decide_eq_true. apply bool_decide_eq_true in Hc. congruence.
Qed.

(** What [GetCondition] finds after a whole list of conditions was set. *)
Lemma foldl_setCondition_find (c : list Condition) (ct : string) (cs : list Condition) :
  match lastOfType ct c with
  | Some new =>
      exists x, List.find (fun y => bool_decide (cond_Type y = ct)) (foldl setCondition cs c)
                = Some x
                /\ Condition_Equal x new = true
  | None =>
      List.find (fun y => bool_decide (cond_Type y = ct)) (foldl setCondition cs c)
      = List.find (fun y => bool_decide (cond_Type y = ct)) cs
  end.
Proof.
  revert cs. induction c as [|new rest IH]; intros cs; [reflexivity|].
  unfold lastOfType in *. simpl. rewrite find_app_last.
  specialize (IH (setCondition cs new)).
  destruct (List.find _ (rev rest)) as [x|]; [exact IH|].
  rewrite IH. destruct (bool_decide (cond_Type new = ct)) eqn:Hty.
  - apply bool_decide_eq_true in Hty. subst ct. apply setCondition_find.
  - apply bool_decide_eq_false in Hty. apply setCondition_find_other. exact Hty.
Qed.

(** ** Observing again *)

(** X1. A record that a successful [Observe] has returned is returned
    unchanged by every later successful [Observe], whatever the clock reads
    by then: the Ready condition keeps its first transition time. *)
Theorem Observe_again_keeps_the_record (c : external) (cr : Permission) (t : Time)
    (s : State) (w : World) :
  let cr1 := Status_SetConditions cr [Available t] in
  Client_Get (repositorypermission c) (getParameters cr) (outside s) = (None, w) ->
  Observe c (MgPermission (Some cr1)) s
  = Returned (MgPermission (Some cr1), observedUpToDate, None)
             (logged s w (CallGet (getParameters cr))).
Proof.
  intros cr1 Hget. unfold Observe; go_unfold; simpl; unfold v1_Available.
  change (getParameters cr1) with (getParameters cr). rewrite Hget.
  unfold logged. do 3 f_equal.
  unfold cr1, Status_SetConditions, ConditionedStatus_SetConditions; simpl.
  rewrite setCondition_again; reflexivity.
Qed.

(** X2. A successful [Observe] touches the Ready condition only: a condition
    of any other type reads as before, no condition is dropped and at most
    one is added. *)
Theorem Observe_keeps_other_conditions (c : external) (cr : Permission) (s : State)
    (w : World) (ct : string) :
  Client_Get (repositorypermission c) (getParameters cr) (outside s) = (None, w) ->
  ct <> TypeReady ->
  exists cr' obs s',
    Observe c (MgPermission (Some cr)) s = Returned (MgPermission (Some cr'), obs, None) s'
    /\ GetCondition cr' ct = GetCondition cr ct
    /\ length (Conditions (ResourceStatus (Status cr)))
       <= length (Conditions (ResourceStatus (Status cr')))
       <= S (length (Conditions (ResourceStatus (Status cr)))).
Proof.
  intros Hget Hct. eexists _, _, _. split.
  - unfold Observe; go_unfold; simpl; unfold v1_Available. rewrite Hget. reflexivity.
  - split.
    + unfold GetCondition, ConditionedStatus_GetCondition; simpl.
      rewrite setCondition_find_other; [reflexivity|]. simpl. congruence.
    + simpl. apply setCondition_length.
Qed.

(** ** The generated accessors *)

(** X8. After [SetConditions] with any list of conditions, [GetCondition]
    for a type reads the last condition of that type in the list, up to its
    transition time; for a type the list does not mention it reads what it
    read before. *)
Theorem SetConditions_GetCondition (mg : Permission) (c : list Condition) (ct : string) :
  match lastOfType ct c with
  | Some new => Condition_Equal (GetCondition (SetConditions mg c) ct) new = true
  | None => GetCondition (SetConditions mg c) ct = GetCondition mg ct
  end.
Proof.
  pose proof (foldl_setCondition_find c ct (Conditions (ResourceStatus (Status mg)))) as H.
  unfold GetCondition, ConditionedStatus_GetCondition, SetConditions, Status_SetConditions,
    ConditionedStatus_SetConditions; simpl.
  destruct (lastOfType ct c) as [new|].
  - destruct H as (x & -> & Hx). exact Hx.
  - rewrite H. reflexivity.
Qed.

(** X9. Each setter of the resource spec is read back by its getter and
    leaves the other four getters, the metadata, the provider parameters and
    the status as they were. *)
Theorem resource_spec_accessors (mg : Permission) :
  let '(d, m, p, pub, w) := resourceSpec mg in
  (forall r, resourceSpec (SetDeletionPolicy mg r) = (r, m, p, pub, w)
             /\ sameOutsideResourceSpec mg (SetDeletionPolicy mg r))
  /\ (forall r, resourceSpec (SetManagementPolicies mg r) = (d, r, p, pub, w)
                /\ sameOutsideResourceSpec mg (SetManagementPolicies mg r))
  /\ (forall r, resourceSpec (SetProviderConfigReference mg r) = (d, m, r, pub, w)
                /\ sameOutsideResourceSpec mg (SetProviderConfigReference mg r))
  /\ (forall r, resourceSpec (SetPublishConnectionDetailsTo mg r) = (d, m, p, r, w)
                /\ sameOutsideResourceSpec mg (SetPublishConnectionDetailsTo mg r))
  /\ (forall r, resourceSpec (SetWriteConnectionSecretToReference mg r) = (d, m, p, pub, r)
                /\ sameOutsideResourceSpec mg (SetWriteConnectionSecretToReference mg r)).
Proof.
  unfold resourceSpec, sameOutsideResourceSpec. repeat split.
Qed.

(** ** What the operations read and what they call *)

Lemma createParameters_key (cr1 cr2 : Permission) :
  getParameters cr1 = getParameters cr2 ->
  Permission_level (ForProvider (Spec cr1)) = Permission_level (ForProvider (Spec cr2)) ->
  createParameters cr1 = createParameters cr2.
Proof.
  unfold getParameters, createParameters. intros [= Hr Ho Ht] Hp.
  rewrite Hr, Ho, Ht, Hp. reflexivity.
Qed.

(** What [Create] returns, given what the API's Create returned. *)
Lemma Create_result (c : external) (cr : Permission) (s : State) :
  Create c (MgPermission (Some cr)) s
  = Returned
      (match (Client_Create (repositorypermission c) (createParameters cr) (outside s)).1 with
       | Some e => (MgPermission (Some cr), ExternalCreation_zero,
                    Some (withMessage e "failed to create repository permission"))
       | None => (MgPermission (Some (SetExternalName cr (repositoryIdentifier cr))),
                  ExternalCreation_zero, None)
       end)
      (logged s (Client_Create (repositorypermission c) (createParameters cr) (outside s)).2
              (CallCreate (createParameters cr))).
Proof.
  unfold Create; go_unfold; simpl.
  destruct (Client_Create _ _ _) as [[e|] w']; reflexivity.
Qed.

(** X3. The operations read the organization, the repository and the team of
    a record and, for [Create], its permission level, and nothing else: on
    two records that agree on these, in the same state, [Observe] returns the
    same observation and error, [Delete] and [Create] the same error, and
    each leaves the same world and call log. Annotations (the external name
    among them), status and the rest of the spec make no difference. *)
Theorem operations_read_only_the_key (c : external) (cr1 cr2 : Permission) (s : State) :
  getParameters cr1 = getParameters cr2 ->
  (exists mg1 mg2 obs err s',
     Observe c (MgPermission (Some cr1)) s = Returned (mg1, obs, err) s'
     /\ Observe c (MgPermission (Some cr2)) s = Returned (mg2, obs, err) s')
  /\ (exists err s',
        Delete c (MgPermission (Some cr1)) s = Returned (MgPermission (Some cr1), err) s'
        /\ Delete c (MgPermission (Some cr2)) s = Returned (MgPermission (Some cr2), err) s')
  /\ (Permission_level (ForProvider (Spec cr1)) = Permission_level (ForProvider (Spec cr2)) ->
      exists mg1 mg2 res err s',
        Create c (MgPermission (Some cr1)) s = Returned (mg1, res, err) s'
        /\ Create c (MgPermission (Some cr2)) s = Returned (mg2, res, err) s').
Proof.
  intros Hkey. split; [|split].
  - destruct (Observe_error c cr1 s) as (mg1 & obs1 & H1).
    destruct (Observe_error c cr2 s) as (mg2 & obs2 & H2).
    rewrite Hkey in H1.
    assert (obs1 = obs2) as ->.
    { revert H1 H2. unfold Observe; go_unfold; simpl; unfold v1_Available.
      rewrite Hkey. destruct (Client_Get _ _ _) as [[e|] w']; simpl; congruence. }
    eauto 10.
  - rewrite !Delete_result, Hkey. eauto.
  - intros Hp. pose proof (createParameters_key _ _ Hkey Hp) as Hcp.
    rewrite !Create_result, Hcp.
    destruct (Client_Create _ _ _) as [[e|] w']; simpl; eauto 10.
Qed.

(** X4. When the API's Create succeeds and the API's Get then finds the
    object, [Create] followed by [Observe] makes these two calls in this
    order, the second for the key the first created, and returns
    exists and up-to-date both true with no error; the record comes back
    with its external name bound to the repository identifier, the Ready
    condition reading Available and the spec untouched. *)
Theorem Create_then_Observe (c : external) (cr : Permission) (s : State) (w1 w2 : World) :
  Client_Create (repositorypermission c) (createParameters cr) (outside s) = (None, w1) ->
  Client_Get (repositorypermission c) (createdKey (createParameters cr)) w1 = (None, w2) ->
  exists cr',
    CreateThenObserve c (MgPermission (Some cr)) s
    = Returned (MgPermission (Some cr'), None, observedUpToDate, None)
               (logged (logged s w1 (CallCreate (createParameters cr))) w2
                       (CallGet (createdKey (createParameters cr))))
    /\ externalName (Meta cr') = Some (repositoryIdentifier cr)
    /\ cond_Status (GetCondition cr' TypeReady) = ConditionTrue
    /\ cond_Reason (GetCondition cr' TypeReady) = ReasonAvailable
    /\ Spec cr' = Spec cr.
Proof.
  intros Hc Hg.
  exists (Status_SetConditions (SetExternalName cr (repositoryIdentifier cr))
                               [Available (metav1_Now w2)]).
  split; [|split; [|split; [|split]]].
  - unfold CreateThenObserve. go_unfold. rewrite Create_result, Hc. cbv beta iota.
    unfold Observe; go_unfold; simpl; unfold v1_Available.
    change (getParameters (SetExternalName cr (repositoryIdentifier cr)))
      with (createdKey (createParameters cr)).
    rewrite Hg. reflexivity.
  - apply externalName_SetExternalName.
  - pose proof (GetCondition_SetConditions (SetExternalName cr (repositoryIdentifier cr))
                  (Available (metav1_Now w2))) as Heq.
    apply Condition_Equal_Available in Heq. tauto.
  - pose proof (GetCondition_SetConditions (SetExternalName cr (repositoryIdentifier cr))
                  (Available (metav1_Now w2))) as Heq.
    apply Condition_Equal_Available in Heq. tauto.
  - reflexivity.
Qed.

(** X5. A nil [*Permission] inside the interface passes the type assertion
    and makes [Observe], [Create] and [Delete] panic when they read its spec,
    whatever the client and the state; on every other input these three
    return once the call they make to the API client has returned. *)
Theorem panics_only_on_nil_pointer (c : external) (mg : Managed) (s : State) :
  isPermission (MgPermission None : Managed) = true
  /\ ((exists r, Observe c mg s = Panicked r) <-> mg = MgPermission None)
  /\ ((exists r, Create c mg s = Panicked r) <-> mg = MgPermission None)
  /\ ((exists r, Delete c mg s = Panicked r) <-> mg = MgPermission None).
Proof.
  split; [reflexivity|]. split; [|split].
  - split.
    + intros [r H]. destruct mg as [|[cr|]|]; try discriminate; [|reflexivity].
      destruct (Observe_error c cr s) as (? & ? & H'). congruence.
    + intros ->. eexists. reflexivity.
  - split.
    + intros [r H]. destruct mg as [|[cr|]|]; try discriminate; [|reflexivity].
      rewrite Create_result in H. discriminate.
    + intros ->. eexists. reflexivity.
  - split.
    + intros [r H]. destruct mg as [|[cr|]|]; try discriminate; [|reflexivity].
      rewrite Delete_result in H. discriminate.
    + intros ->. eexists. reflexivity.
Qed.

(** X6. Each operation leaves the process at most once and only for its own
    call: [Observe] for a Get, [Create] for a Create, [Delete] for a Delete,
    [Update] never; [Connect] tracks usage and then resolves the
    configuration, in this order, or stops after the first or before both. In
    particular [Observe] never creates or deletes anything remote. *)
Theorem calls_by_operation (c : external) (k : connector) (mg : Managed) (s : State) :
  (forall r s', Observe c mg s = Returned r s' ->
                s' = s \/ exists p w, s' = logged s w (CallGet p))
  /\ (forall r s', Create c mg s = Returned r s' ->
                   s' = s \/ exists p w, s' = logged s w (CallCreate p))
  /\ (forall r s', Delete c mg s = Returned r s' ->
                   s' = s \/ exists p w, s' = logged s w (CallDelete p))
  /\ (forall r s', Update c mg s = Returned r s' -> s' = s)
  /\ (forall r s', Connect k mg s = Returned r s' ->
                   s' = s
                   \/ (exists w, s' = logged s w (CallTrack mg))
                   \/ (exists w1 w2,
                         s' = logged (logged s w1 (CallTrack mg)) w2 (CallNewConfig mg))).
Proof.
  split; [|split; [|split; [|split]]]; intros r s'.
  - destruct mg as [|[cr|]|]; try (intros [= _ <-]; left; reflexivity); try discriminate.
    destruct (Observe_error c cr s) as (? & ? & ->). intros [= _ <-].
    right. eexists _, _. reflexivity.
  - destruct mg as [|[cr|]|]; try (intros [= _ <-]; left; reflexivity); try discriminate.
    rewrite Create_result. intros [= _ <-]. right. eexists _, _. reflexivity.
  - destruct mg as [|[cr|]|]; try (intros [= _ <-]; left; reflexivity); try discriminate.
    rewrite Delete_result. intros [= _ <-]. right. eexists _, _. reflexivity.
  - intros [= _ <-]. reflexivity.
  - destruct mg as [|ptr|]; try (intros [= _ <-]; left; reflexivity).
    unfold Connect; go_unfold; simpl.
    destruct (Track _ _ _) as [[e|] w1]; simpl.
    + intros [= _ <-]. right. left. eexists. reflexivity.
    + destruct (upclient_NewConfig _ _ _) as [[cfg [e|]] w2]; simpl;
        intros [= _ <-]; right; right; exists w1, w2; reflexivity.
Qed.

(** X7. An error that comes back from an operation on a Permission record is
    never made up: its root cause, as [errors.Cause] finds it, is the root
    cause of the error the collaborator returned to that operation. For
    [Connect] the error is the wrong-kind error itself or has the root cause
    of the error of [Track] or, [Track] having succeeded, of [NewConfig]. *)
Theorem errors_keep_their_cause (c : external) (k : connector) (cr : Permission)
    (mg : Managed) (s : State) (e' : error) :
  (forall mg' obs s',
     Observe c (MgPermission (Some cr)) s = Returned (mg', obs, Some e') s' ->
     exists e, (Client_Get (repositorypermission c) (getParameters cr) (outside s)).1 = Some e
               /\ errors_Cause e' = errors_Cause e)
  /\ (forall mg' res s',
        Create c (MgPermission (Some cr)) s = Returned (mg', res, Some e') s' ->
        exists e,
          (Client_Create (repositorypermission c) (createParameters cr) (outside s)).1 = Some e
          /\ errors_Cause e' = errors_Cause e)
  /\ (forall mg' s',
        Delete c (MgPermission (Some cr)) s = Returned (mg', Some e') s' ->
        exists e,
          (Client_Delete (repositorypermission c) (getParameters cr) (outside s)).1 = Some e
          /\ errors_Cause e' = errors_Cause e)
  /\ (forall ext s',
        Connect k mg s = Returned (ext, Some e') s' ->
        (isPermission mg = false /\ e' = errorString errNotPermission)
        \/ (exists e, (Track (usage k) mg (outside s)).1 = Some e
                      /\ errors_Cause e' = errors_Cause e)
        \/ (exists w1 e,
              Track (usage k) mg (outside s) = (None, w1)
              /\ (upclient_NewConfig (kube k) mg w1).1.2 = Some e
              /\ errors_Cause e' = errors_Cause e)).
Proof.
  split; [|split; [|split]].
  - intros mg' obs s'. destruct (Observe_error c cr s) as (? & ? & ->).
    destruct (Client_Get _ _ _) as [[e|] w']; simpl; [|discriminate].
    destruct (uperrors_IsNotFound (Some e)); [discriminate|].
    intros [= _ _ <- _]. eauto.
  - intros mg' res s'. rewrite Create_result.
    destruct (Client_Create _ _ _) as [[e|] w']; simpl; [|discriminate].
    intros [= _ _ <- _]. eauto.
  - intros mg' s'. rewrite Delete_result.
    destruct (Client_Delete _ _ _) as [[e|] w']; simpl; [|discriminate].
    destruct (uperrors_IsNotFound (Some e)); [discriminate|].
    intros [= _ <- _]. eauto.
  - intros ext s'.
    destruct mg as [|ptr|]; try (intros [= _ <- _]; left; split; reflexivity).
    unfold Connect; go_unfold; simpl.
    destruct (Track _ _ _) as [[e|] w1]; simpl; [intros [= _ <- _]; eauto|].
    destruct (upclient_NewConfig _ _ _) as [[cfg [e|]] w2] eqn:Hc; simpl; [|discriminate].
    intros [= _ <- _]. right. right. exists w1, e. rewrite Hc. auto.
Qed.

(** X12. [Observe] reports that the resource exists only when the API's Get
    succeeded on a Permission record, and then also reports it up to date
    with no error; whenever it reports that the resource does not exist, with
    or without an error, the managed resource comes back untouched: no
    condition is set on a failed or wrong-kind observation. *)
Theorem Observe_exists_only_after_Get (c : external) (mg mg' : Managed)
    (obs : ExternalObservation) (err : option error) (s s' : State) :
  Observe c mg s = Returned (mg', obs, err) s' ->
  (ResourceExists obs = true ->
   exists cr w,
     mg = MgPermission (Some cr)
     /\ Client_Get (repositorypermission c) (getParameters cr) (outside s) = (None, w)
     /\ err = None
     /\ ResourceUpToDate obs = true)
  /\ (ResourceExists obs = false -> mg' = mg).
Proof.
  destruct mg as [|[cr|]|]; try discriminate;
    try (intros [= <- <- <- <-]; split; [discriminate|reflexivity]).
  unfold Observe; go_unfold; simpl; unfold v1_Available.
  destruct (Client_Get _ _ _) as [[e|] w] eqn:Hget; simpl.
  - intros [= <- <- <- <-]. split; [discriminate|reflexivity].
  - intros [= <- <- <- <-]. split; [|discriminate].
    intros _. exists cr, w. auto.
Qed.

End Properties.

(** * Properties of [main] *)

Section MainProperties.

Context {Host ForeignError RestConfig Manager : Type}.
Context {platform : Platform (Host:=Host) (ForeignError:=ForeignError)
                             (RestConfig:=RestConfig) (Manager:=Manager)}.

Local Abbreviation error := (error (ForeignError:=ForeignError)).
Local Abbreviation Boot := (Boot (Host:=Host) (RestConfig:=RestConfig)).
Local Abbreviation Step := (Step (RestConfig:=RestConfig)).

Ltac boot_unfold :=
  unfold main, mbind, mret, Booting_mbind, Booting_mret, hostcall, note,
    kingpin_FatalIfError, resource_Ignore; simpl.




Lemma Flags_Enabled_Enable (fs : gset string) (flag : string) :
  Flags_Enabled (Flags_Enable fs flag) flag = true.
Proof. apply bool_decide_eq_true. unfold Flags_Enable. set_solver. Qed.

Lemma Flags_Enabled_empty (flag : string) : Flags_Enabled ∅ flag = false.
Proof. apply bool_decide_eq_false. set_solver. Qed.

(** X11. Without external secret stores enabled, [main] creates no store
    configuration and never sets the controllers up with that feature on.
    With them enabled, once configuration, manager and scheme succeeded,
    [main] asks once for the store configuration "default" scoped to the
    namespace flag to be created, whatever the answer. If the creation
    succeeds or the API server answers that the object already exists,
    [main] goes on to set the controllers up with the feature enabled; any
    other error ends [main] with "cannot create default store config", the
    creation being the last call made and no controller having been set up. *)
Theorem default_store_config (f : Flags) (b : Boot) :
  (enableExternalSecretStores f = false ->
   exists new,
     steps (exitBoot (main f b)) = steps b ++ new
     /\ existsb isCreateStoreConfig new = false
     /\ existsb (setupWith features_EnableAlphaExternalSecretStores) new = false)
  /\ (forall cfg h1 mgr h2 h3 err h4,
        enableExternalSecretStores f = true ->
        ctrl_GetConfig (host b) = ((cfg, None), h1) ->
        ctrl_NewManager (ratelimiter_LimitRESTConfig cfg (maxReconcileRate f))
                        (managerOptions f) h1 = ((mgr, None), h2) ->
        apis_AddToScheme mgr h2 = (None, h3) ->
        Client_CreateStoreConfig
          mgr {| sc_Name := "default"; sc_DefaultScope := namespace f |} h3 = (err, h4) ->
        let create : Step :=
          StepCreateStoreConfig {| sc_Name := "default"; sc_DefaultScope := namespace f |} in
        let setup : Step :=
          StepSetup (enableFeature (controllerOptions f)
                                   features_EnableAlphaExternalSecretStores) in
        (err = None \/ kerrors_IsAlreadyExists err = true ->
         exists before after,
           steps (exitBoot (main f b)) = steps b ++ before ++ [create; setup] ++ after
           /\ existsb isCreateStoreConfig before = false
           /\ existsb isCreateStoreConfig after = false
           /\ existsb isSetup before = false
           /\ setupWith features_EnableAlphaExternalSecretStores setup = true)
        /\ (forall e,
              err = Some e -> kerrors_IsAlreadyExists (Some e) = false ->
              exists before,
                main f b
                = Fatal "cannot create default store config" e
                        {| host := h4; steps := steps b ++ before ++ [create] |}
                /\ existsb isCreateStoreConfig before = false
                /\ existsb isSetup before = false)).
Proof.
  split.
  - intros Hoff. boot_unfold. rewrite Hoff.
    destruct (debug f); simpl;
      destruct (ctrl_GetConfig _) as [[cfg [e1|]] h1]; simpl;
      try (eexists; rewrite <- ?app_assoc; split; [reflexivity|split; reflexivity]);
      destruct (ctrl_NewManager _ _ _) as [[mgr [e2|]] h2]; simpl;
      try (eexists; rewrite <- ?app_assoc; split; [reflexivity|split; reflexivity]);
      destruct (apis_AddToScheme _ _) as [[e3|] h3]; simpl;
      try (eexists; rewrite <- ?app_assoc; split; [reflexivity|split; reflexivity]);
      destruct (upbound_Setup _ _ _) as [[e5|] h5]; simpl;
      try (eexists; rewrite <- ?app_assoc; split; [reflexivity|];
           simpl; rewrite Flags_Enabled_empty; split; reflexivity);
      destruct (Manager_Start _ _) as [[e6|] h6]; simpl;
      eexists; rewrite <- ?app_assoc; (split; [reflexivity|]);
      simpl; rewrite Flags_Enabled_empty; split; reflexivity.
  - intros cfg h1 mgr h2 h3 err h4 Hon Hcfg Hmgr Hscheme Hcreate create setup.
    subst create setup. split.
    + intros Hgo.
      assert (Hignore : (if kerrors_IsAlreadyExists err then None else err) = None).
      { destruct Hgo as [-> | ->]; [destruct (kerrors_IsAlreadyExists None)|]; reflexivity. }
      boot_unfold. rewrite Hon. unfold defaultStoreConfig.
      destruct (debug f); simpl; rewrite Hcfg; simpl; rewrite Hmgr; simpl;
        rewrite Hscheme; simpl; rewrite Hcreate; simpl; rewrite Hignore; simpl;
        destruct (upbound_Setup _ _ _) as [[e5|] h5]; simpl;
        try destruct (Manager_Start _ _) as [[e6|] h6]; simpl;
        rewrite <- ?app_assoc; simpl;
        (first [ eexists [_; _; _; _; _], _; split; [reflexivity|]
               | eexists [_; _; _; _], _; split; [reflexivity|] ]);
        simpl; repeat (split; [reflexivity|]); apply Flags_Enabled_Enable.
    + intros e -> Hae.
      boot_unfold. rewrite Hon. unfold defaultStoreConfig.
      destruct (debug f); simpl; rewrite Hcfg; simpl; rewrite Hmgr; simpl;
        rewrite Hscheme; simpl; rewrite Hcreate; simpl; rewrite Hae; simpl;
        rewrite <- ?app_assoc; simpl;
        (first [ eexists [_; _; _; _; _]; split; [reflexivity|]
               | eexists [_; _; _; _]; split; [reflexivity|] ]);
        split; reflexivity.
Qed.

End MainProperties.

(** * The statements on the small remote *)

(** Scenario: nothing granted yet, so [Observe] reports absence; [Create]
    binds the external name to "infra"; the next [Observe] reports Available. *)
Example scenario_create_then_observe :
  match Observe remoteExternal infra (start emptyRemote) with
  | Returned (mg1, obs1, err1) s1 =>
      match Create remoteExternal mg1 s1 with
      | Returned (MgPermission (Some cr2), _, err2) s2 =>
          match Observe remoteExternal (MgPermission (Some cr2)) s2 with
          | Returned (MgPermission (Some cr3), obs3, err3) s3 =>
              (ResourceExists obs1, err1, err2, meta_GetExternalName (Meta cr2),
               ResourceExists obs3, ResourceUpToDate obs3, err3,
               cond_Reason (GetCondition cr3 TypeReady), length (calls s3))
              = (false, None, None, "infra", true, true, None, "Available", 3)
          | _ => False
          end
      | _ => False
      end
  | Panicked _ => False
  end.
Proof. vm_compute. reflexivity. Qed.

(** Scenario: the grant was removed out of band; [Delete] meets NotFound and
    returns no error, so finalization can proceed. *)
Example scenario_delete_absent :
  Delete remoteExternal infra (start emptyRemote)
  = Returned (infra, None)
             (logged (start emptyRemote) emptyRemote (CallDelete (getParameters sre_on_infra))).
Proof. vm_compute. reflexivity. Qed.

(** Scenario: the permission level in the spec no longer matches the grant;
    [Observe] still reports the resource up to date. *)
Example scenario_permission_edited :
  match Observe remoteExternal (MgPermission (Some editedToRead)) (start grantedRemote) with
  | Returned (_, obs, err) _ => (ResourceExists obs, ResourceUpToDate obs, err)
                                = (true, true, None)
  | Panicked _ => False
  end.
Proof. vm_compute. reflexivity. Qed.

Lemma Observe_Get_succeeds_witness :
  Observe remoteExternal infra (start grantedRemote)
  = Returned (MgPermission (Some (Status_SetConditions sre_on_infra [Available 1700000060%Z])),
              observedUpToDate, None)
             (logged (start grantedRemote) grantedRemote (CallGet (getParameters sre_on_infra))).
Proof.
  exact (proj1 (Observe_Get_succeeds remoteExternal sre_on_infra
                  (start grantedRemote) grantedRemote eq_refl)).
Defined.

Lemma Observe_Get_NotFound_witness :
  exists obs,
    Observe remoteExternal infra (start emptyRemote)
    = Returned (infra, obs, None)
               (logged (start emptyRemote) emptyRemote (CallGet (getParameters sre_on_infra)))
    /\ ResourceExists obs = false.
Proof.
  exact (Observe_Get_NotFound remoteExternal sre_on_infra
           (start emptyRemote) (foreignError 404) emptyRemote eq_refl eq_refl).
Defined.

Lemma Observe_error_iff_witness :
  exists mg' obs s',
    Observe downExternal infra (start emptyRemote)
    = Returned (mg', obs, Some (withMessage (foreignError 500) "failed to get team")) s'.
Proof.
  destruct (Observe_error_iff downExternal sre_on_infra (start emptyRemote))
    as (mg' & obs & err & s' & Hrun & _ & Hwrap).
  destruct (Hwrap (foreignError 500) eq_refl eq_refl) as (-> & _).
  exists mg', obs, s'. exact Hrun.
Defined.

Lemma Create_binds_external_name_witness :
  externalName (Meta (SetExternalName sre_on_infra (repositoryIdentifier sre_on_infra)))
    = Some "infra"
  /\ exists cr' err,
       Create downExternal infra (start emptyRemote)
       = Returned (MgPermission (Some cr'), ExternalCreation_zero, Some err)
                  (logged (start emptyRemote) emptyRemote
                          (CallCreate (createParameters sre_on_infra)))
       /\ err = withMessage (foreignError 500) "failed to create repository permission"
       /\ cr' = sre_on_infra
       /\ (externalName (Meta sre_on_infra) = None -> externalName (Meta cr') = None).
Proof.
  split.
  - exact (proj1 (proj2 (proj1 (Create_binds_external_name remoteExternal sre_on_infra
                                  (start emptyRemote)) _ eq_refl))).
  - exact (proj2 (Create_binds_external_name downExternal sre_on_infra (start emptyRemote))
             (foreignError 500) emptyRemote eq_refl).
Defined.

Lemma Delete_ignores_NotFound_witness :
  exists s'', DeleteTwice remoteExternal infra (start emptyRemote)
              = Returned (None, None) s''.
Proof.
  apply (Delete_ignores_NotFound remoteExternal sre_on_infra (start emptyRemote));
    right; reflexivity.
Defined.

Lemma Connect_steps_witness :
  Connect theConnector aRobot (start emptyRemote)
    = Returned (None, wrongKind) (start emptyRemote)
  /\ Connect {| kube := (); usage := trackingDown |} infra (start emptyRemote)
     = Returned (None, Some (withMessage (foreignError 500) errTrackPCUsage))
                (logged (start emptyRemote) emptyRemote (CallTrack infra))
  /\ Connect theConnector (MgPermission (Some withoutConfig))
             (start emptyRemote)
     = Returned (None, Some (withMessage (errorString "no providerConfigRef given") errNewClient))
                (logged (logged (start emptyRemote) emptyRemote
                                (CallTrack (MgPermission (Some withoutConfig))))
                        emptyRemote (CallNewConfig (MgPermission (Some withoutConfig))))
  /\ Connect theConnector infra (start emptyRemote)
     = Returned (Some {| repositorypermission := newClient "default" |}, None)
                (logged (logged (start emptyRemote) emptyRemote (CallTrack infra))
                        emptyRemote (CallNewConfig infra)).
Proof.
  split; [|split; [|split]].
  - exact (proj1 (Connect_steps theConnector aRobot (start emptyRemote))
             eq_refl).
  - exact (proj1 (proj2 (Connect_steps
                           {| kube := (); usage := trackingDown |} infra (start emptyRemote)))
             (foreignError 500) emptyRemote eq_refl eq_refl).
  - exact (proj1 (proj2 (proj2 (Connect_steps theConnector
                                  (MgPermission (Some withoutConfig)) (start emptyRemote))))
             emptyRemote "" (errorString "no providerConfigRef given") emptyRemote
             eq_refl eq_refl eq_refl).
  - exact (proj1 (proj2 (proj2 (proj2 (Connect_steps theConnector infra
                                         (start emptyRemote)))))
             emptyRemote "default" emptyRemote eq_refl eq_refl eq_refl).
Defined.

Lemma Update_noop_witness :
  Update remoteExternal infra (start grantedRemote)
  = Returned (infra, ExternalUpdate_zero, None) (start grantedRemote).
Proof. exact (Update_noop remoteExternal infra (start grantedRemote)). Defined.


Lemma not_a_Permission_witness :
  Observe remoteExternal aRobot (start grantedRemote)
    = Returned (aRobot, ExternalObservation_zero, wrongKind) (start grantedRemote)
  /\ Delete remoteExternal MgNil (start grantedRemote)
     = Returned (MgNil, wrongKind) (start grantedRemote).
Proof.
  split.
  - exact (proj1 (not_a_Permission remoteExternal
                    theConnector aRobot (start grantedRemote) eq_refl)).
  - exact (proj1 (proj2 (proj2 (not_a_Permission
                                  remoteExternal theConnector MgNil (start grantedRemote)
                                  eq_refl)))).
Defined.


(** Observed at 1700000000, observed again a minute later: the same record. *)
Lemma Observe_again_keeps_the_record_witness :
  Observe remoteExternal (MgPermission (Some boundAvailable)) (start grantedRemote)
  = Returned (MgPermission (Some boundAvailable), observedUpToDate, None)
             (logged (start grantedRemote) grantedRemote (CallGet (getParameters bound))).
Proof.
  exact (Observe_again_keeps_the_record remoteExternal bound 1700000000%Z
           (start grantedRemote) grantedRemote eq_refl).
Defined.

Lemma Observe_keeps_other_conditions_witness :
  exists cr' obs s',
    Observe remoteExternal (MgPermission (Some unsynced)) (start grantedRemote)
    = Returned (MgPermission (Some cr'), obs, None) s'
    /\ GetCondition cr' "Synced" = GetCondition unsynced "Synced"
    /\ 2 <= length (Conditions (ResourceStatus (Status cr'))) <= 3.
Proof.
  refine (Observe_keeps_other_conditions remoteExternal unsynced (start grantedRemote)
            grantedRemote "Synced" eq_refl _).
  discriminate.
Defined.

(** The record with another permission level is observed alike. *)
Lemma operations_read_only_the_key_witness :
  exists mg1 mg2 obs err s',
    Observe remoteExternal infra (start grantedRemote) = Returned (mg1, obs, err) s'
    /\ Observe remoteExternal (MgPermission (Some editedToRead)) (start grantedRemote)
       = Returned (mg2, obs, err) s'.
Proof.
  exact (proj1 (operations_read_only_the_key remoteExternal sre_on_infra editedToRead
                  (start grantedRemote) eq_refl)).
Defined.

Lemma Create_then_Observe_witness :
  exists cr',
    CreateThenObserve remoteExternal infra (start emptyRemote)
    = Returned (MgPermission (Some cr'), None, observedUpToDate, None)
               (logged (logged (start emptyRemote)
                               {| grants := [(("acme", "infra", "sre"), "admin")];
                                  clock := 1700000000 |}
                               (CallCreate (createParameters sre_on_infra)))
                       {| grants := [(("acme", "infra", "sre"), "admin")];
                          clock := 1700000000 |}
                       (CallGet (createdKey (createParameters sre_on_infra))))
    /\ externalName (Meta cr') = Some (repositoryIdentifier sre_on_infra)
    /\ cond_Status (GetCondition cr' TypeReady) = ConditionTrue
    /\ cond_Reason (GetCondition cr' TypeReady) = ReasonAvailable
    /\ Spec cr' = Spec sre_on_infra.
Proof.
  exact (Create_then_Observe remoteExternal sre_on_infra (start emptyRemote) _ _
           eq_refl eq_refl).
Defined.

Lemma calls_by_operation_witness :
  logged (start emptyRemote) emptyRemote (CallGet (getParameters sre_on_infra))
    = start emptyRemote
  \/ exists p w,
       logged (start emptyRemote) emptyRemote (CallGet (getParameters sre_on_infra))
       = logged (start emptyRemote) w (CallGet p).
Proof.
  exact (proj1 (calls_by_operation remoteExternal theConnector infra (start emptyRemote))
           (infra, ExternalObservation_zero, None) _ eq_refl).
Defined.

Lemma errors_keep_their_cause_witness :
  exists e,
    (Client_Get downClient (getParameters sre_on_infra) emptyRemote).1 = Some e
    /\ errors_Cause (withMessage (foreignError 500) "failed to get team") = errors_Cause e.
Proof.
  exact (proj1 (errors_keep_their_cause downExternal theConnector sre_on_infra infra
                  (start emptyRemote)
                  (withMessage (foreignError 500) "failed to get team"))
           infra ExternalObservation_zero _ eq_refl).
Defined.

(** On a restart with external secret stores enabled [main] meets the store
    configuration it created before and starts the manager all the same. *)
Example scenario_restart :
  match main storesEnabled restarted with
  | Went _ b => (host b, isStart <$> steps b)
                = (["default"], [false; false; false; false; false; false; true])
  | Fatal _ _ _ => False
  end.
Proof. vm_compute. reflexivity. Qed.

Lemma default_store_config_witness :
  (exists before after,
     steps (exitBoot (main storesEnabled firstStart))
     = steps firstStart ++ before
       ++ [StepCreateStoreConfig
             {| sc_Name := "default"; sc_DefaultScope := "crossplane-system" |};
           StepSetup (enableFeature (controllerOptions storesEnabled)
                                    "EnableAlphaExternalSecretStores")]
       ++ after
     /\ existsb isCreateStoreConfig before = false
     /\ existsb isCreateStoreConfig after = false
     /\ existsb isSetup before = false
     /\ setupWith "EnableAlphaExternalSecretStores"
          (StepSetup (enableFeature (controllerOptions storesEnabled)
                                    "EnableAlphaExternalSecretStores")
           : Step (RestConfig:=string * Z))
        = true)
  /\ (exists before after,
        steps (exitBoot (main storesEnabled restarted))
        = steps restarted ++ before
          ++ [StepCreateStoreConfig
                {| sc_Name := "default"; sc_DefaultScope := "crossplane-system" |};
              StepSetup (enableFeature (controllerOptions storesEnabled)
                                       "EnableAlphaExternalSecretStores")]
          ++ after
        /\ existsb isCreateStoreConfig before = false
        /\ existsb isCreateStoreConfig after = false
        /\ existsb isSetup before = false
        /\ setupWith "EnableAlphaExternalSecretStores"
             (StepSetup (enableFeature (controllerOptions storesEnabled)
                                       "EnableAlphaExternalSecretStores")
              : Step (RestConfig:=string * Z))
           = true).
Proof.
  split.
  - exact (proj1 (proj2 (default_store_config storesEnabled firstStart)
                    ("https://kubernetes.default.svc", 0%Z) [] tt [] []
                    None ["default"]
                    eq_refl eq_refl eq_refl eq_refl eq_refl)
             (or_introl eq_refl)).
  - exact (proj1 (proj2 (default_store_config storesEnabled restarted)
                    ("https://kubernetes.default.svc", 0%Z) ["default"] tt ["default"]
                    ["default"] (Some (foreignError 409)) ["default"]
                    eq_refl eq_refl eq_refl eq_refl eq_refl)
             (or_intror eq_refl)).
Defined.

Lemma Observe_exists_only_after_Get_witness :
  exists cr w,
    infra = MgPermission (Some cr)
    /\ Client_Get remoteClient (getParameters cr) grantedRemote = (None, w)
    /\ (None : option RError) = None
    /\ ResourceUpToDate observedUpToDate = true.
Proof.
  exact (proj1 (Observe_exists_only_after_Get remoteExternal infra
                  (MgPermission (Some (Status_SetConditions sre_on_infra
                                         [Available 1700000060%Z])))
                  observedUpToDate None (start grantedRemote)
                  (logged (start grantedRemote) grantedRemote
                          (CallGet (getParameters sre_on_infra)))
                  eq_refl)
           eq_refl).
Defined.

